(** * ShackHeat: the thermal envelope model of [components.py]

    A shallow embedding of the classes [Material], [MaterialCollection],
    [Opening], [Roof], [Floor], [Wall], [Side] and [Building], and the
    properties of their insulance, flux and add/remove methods.

    Modelling choices.
    - Python objects live in a store, a finite map from references to
      objects; an attribute that holds an object holds its reference, so
      that two attributes naming the same object alias as they do in Python.
    - Numbers are exact rationals ([Qc], canonical fractions, so that equal
      numbers are equal terms).  Python's [int] and [float] are both read as
      such numbers; rounding is not modelled.
    - A method is a function on the store.  Read-only methods return
      [result A]; methods that assign attributes are computations [M A] that
      return a result together with the store they leave behind, also when
      they raise.
    - The store tracks the attributes the constructors declare.  What Python
      would do by duck typing outside of that (a write that would create a
      new attribute, a collection nested as a "material" of another, a slot
      filled through [modify] with an object of another class that has the
      called method) is reported as [Unsupported]; the theorems of the
      claims are stated on stores where that does not occur. *)

From Stdlib Require Import QArith Qcanon Qcabs.
From stdpp Require Import base option list gmap strings.

Open Scope Qc_scope.
Open Scope list_scope.

(** ** Exceptions and results *)

Inductive exn : Type :=
  | TypeError
  | AttributeError
  | ZeroDivisionError
  | ValueError
  | Unsupported.

Definition result (A : Type) : Type := exn + A.

#[global] Instance exn_eq_dec : EqDecision exn.
Proof. solve_decision. Defined.

Definition rbind {A B} (r : result A) (k : A -> result B) : result B :=
  match r with
  | inl e => inl e
  | inr a => k a
  end.

Notation "'let?' x := c 'in' k" := (rbind c (fun x => k))
  (at level 10, x name, c at level 100, k at level 200).

(** ** Objects *)

Abbreviation loc := positive (only parsing).

(** The classes that inherit from [MaterialCollection] share its attributes
    and differ by the methods they override. *)
Inductive kind : Type :=
  | KMaterialCollection
  | KOpening
  | KRoof
  | KFloor
  | KWall.

#[global] Instance kind_eq_dec : EqDecision kind.
Proof. solve_decision. Defined.

Record Material : Type := mkMaterial {
  m_parent : option loc;
  m_thermal_conductivity : option Qc;
  m_thickness : option Qc
}.

Record Collection : Type := mkCollection {
  c_kind : kind;
  c_parent : option loc;
  c_surface : option Qc;
  c_materials : list loc
}.

Record Side : Type := mkSide {
  s_parent : option loc;
  s_height : option Qc;
  s_wall : option loc;
  s_openings : list loc
}.

Record Building : Type := mkBuilding {
  b_width : option Qc;
  b_length : option Qc;
  b_roof : option loc;
  b_side : option loc;
  b_floor : option loc
}.

Inductive object : Type :=
  | OMaterial (m : Material)
  | OCollection (c : Collection)
  | OSide (s : Side)
  | OBuilding (b : Building).

#[global] Instance Material_eq_dec : EqDecision Material.
Proof. solve_decision. Defined.
#[global] Instance Collection_eq_dec : EqDecision Collection.
Proof. solve_decision. Defined.
#[global] Instance Side_eq_dec : EqDecision Side.
Proof. solve_decision. Defined.
#[global] Instance Building_eq_dec : EqDecision Building.
Proof. solve_decision. Defined.
#[global] Instance object_eq_dec : EqDecision object.
Proof. solve_decision. Defined.

Abbreviation heap := (gmap positive object) (only parsing).

(** What [MaterialCollection.calculate_flux] receives as
    [temperature_variation]: a number, or the tuple of positional arguments
    that [Roof.calculate_flux] collects in [*args]. *)
Inductive value : Type :=
  | VNum (q : Qc)
  | VTuple (items : list Qc).

(** Attribute assignment on a record. *)
Definition Material_set_parent (v : option loc) (m : Material) : Material :=
  mkMaterial v (m_thermal_conductivity m) (m_thickness m).
Definition Collection_set_parent (v : option loc) (c : Collection) : Collection :=
  mkCollection (c_kind c) v (c_surface c) (c_materials c).
Definition Collection_set_surface (v : option Qc) (c : Collection) : Collection :=
  mkCollection (c_kind c) (c_parent c) v (c_materials c).
Definition Collection_set_materials (v : list loc) (c : Collection) : Collection :=
  mkCollection (c_kind c) (c_parent c) (c_surface c) v.
Definition Side_set_parent (v : option loc) (s : Side) : Side :=
  mkSide v (s_height s) (s_wall s) (s_openings s).
Definition Side_set_wall (v : option loc) (s : Side) : Side :=
  mkSide (s_parent s) (s_height s) v (s_openings s).
Definition Side_set_openings (v : list loc) (s : Side) : Side :=
  mkSide (s_parent s) (s_height s) (s_wall s) v.
Definition Building_set_roof (v : option loc) (b : Building) : Building :=
  mkBuilding (b_width b) (b_length b) v (b_side b) (b_floor b).
Definition Building_set_side (v : option loc) (b : Building) : Building :=
  mkBuilding (b_width b) (b_length b) (b_roof b) v (b_floor b).
Definition Building_set_floor (v : option loc) (b : Building) : Building :=
  mkBuilding (b_width b) (b_length b) (b_roof b) (b_side b) v.

(** ** Computations on the store *)

Definition M (A : Type) : Type := heap -> result A * heap.

Definition ret {A} (a : A) : M A := fun h => (inr a, h).
Definition raise {A} (e : exn) : M A := fun h => (inl e, h).
Definition bind {A B} (c : M A) (k : A -> M B) : M B :=
  fun h =>
    match c h with
    | (inr a, h') => k a h'
    | (inl e, h') => (inl e, h')
    end.
(** Run a read-only method in the current store. *)
Definition read {A} (f : heap -> result A) : M A := fun h => (f h, h).

Notation "'let*' x := c 'in' k" := (bind c (fun x => k))
  (at level 10, x name, c at level 100, k at level 200).

(** ** Python arithmetic on attribute values

    An attribute holds a number or [None]; arithmetic on [None] raises
    [TypeError], and [/] by zero raises [ZeroDivisionError]. *)

Definition py_num (v : option Qc) : result Qc :=
  match v with
  | Some q => inr q
  | None => inl TypeError
  end.

Definition py_add (a b : option Qc) : result Qc :=
  let? x := py_num a in let? y := py_num b in inr (x + y).

Definition py_mul (a b : option Qc) : result Qc :=
  let? x := py_num a in let? y := py_num b in inr (x * y).

Definition py_truediv (a b : option Qc) : result Qc :=
  let? x := py_num a in
  let? y := py_num b in
  if decide (y = 0) then inl ZeroDivisionError else inr (x / y).

(** [temperature_variation / insulance]: a tuple has no [/]. *)
Definition value_truediv (a : value) (y : Qc) : result Qc :=
  match a with
  | VNum x => if decide (y = 0) then inl ZeroDivisionError else inr (x / y)
  | VTuple _ => inl TypeError
  end.

(** The builtin [sum]: [0 + x1 + x2 + ...], left to right. *)
Fixpoint py_sum_from (acc : Qc) (xs : list (option Qc)) : result Qc :=
  match xs with
  | [] => inr acc
  | x :: xs' => let? a := py_add (Some acc) x in py_sum_from a xs'
  end.

Definition py_sum (xs : list (option Qc)) : result Qc := py_sum_from 0 xs.

(** [list.remove(x)]: drops the first element equal to [x]; [None] stands for
    the [ValueError] raised when there is none.  Objects of these classes
    compare by identity. *)
Fixpoint list_remove (x : loc) (l : list loc) : option (list loc) :=
  match l with
  | [] => None
  | y :: l' => if decide (x = y) then Some l' else cons y <$> list_remove x l'
  end.

(** ** Attribute access *)

Definition as_material (self : loc) (h : heap) : result Material :=
  match h !! self with
  | Some (OMaterial m) => inr m
  | _ => inl Unsupported
  end.

Definition as_collection (self : loc) (h : heap) : result Collection :=
  match h !! self with
  | Some (OCollection c) => inr c
  | _ => inl Unsupported
  end.

Definition as_side (self : loc) (h : heap) : result Side :=
  match h !! self with
  | Some (OSide s) => inr s
  | _ => inl Unsupported
  end.

Definition as_building (self : loc) (h : heap) : result Building :=
  match h !! self with
  | Some (OBuilding b) => inr b
  | _ => inl Unsupported
  end.

(** [target.width] and [target.length], where [target] is what a [parent]
    attribute holds: only a [Building] has them. *)
Definition getattr_width (target : option loc) (h : heap) : result (option Qc) :=
  match target with
  | None => inl AttributeError
  | Some b =>
      match h !! b with
      | Some (OBuilding bd) => inr (b_width bd)
      | Some _ => inl AttributeError
      | None => inl Unsupported
      end
  end.

Definition getattr_length (target : option loc) (h : heap) : result (option Qc) :=
  match target with
  | None => inl AttributeError
  | Some b =>
      match h !! b with
      | Some (OBuilding bd) => inr (b_length bd)
      | Some _ => inl AttributeError
      | None => inl Unsupported
      end
  end.

(** [target.surface], read by [Side.calculate_flux] on each opening. *)
Definition getattr_surface (target : loc) (h : heap) : result (option Qc) :=
  match h !! target with
  | Some (OCollection c) => inr (c_surface c)
  | Some _ => inl AttributeError
  | None => inl Unsupported
  end.

(** [child.parent = v]. *)
Definition setattr_parent (child : loc) (v : option loc) : M unit :=
  fun h =>
    match h !! child with
    | Some (OMaterial m) => (inr tt, <[child := OMaterial (Material_set_parent v m)]> h)
    | Some (OCollection c) => (inr tt, <[child := OCollection (Collection_set_parent v c)]> h)
    | Some (OSide s) => (inr tt, <[child := OSide (Side_set_parent v s)]> h)
    | Some (OBuilding _) => (inl Unsupported, h)
    | None => (inl Unsupported, h)
    end.

(** [target.surface = v], where [target] is [self] or what [self.wall] holds. *)
Definition setattr_surface (target : option loc) (v : option Qc) : M unit :=
  fun h =>
    match target with
    | None => (inl AttributeError, h)
    | Some l =>
        match h !! l with
        | Some (OCollection c) => (inr tt, <[l := OCollection (Collection_set_surface v c)]> h)
        | _ => (inl Unsupported, h)
        end
    end.

(** [isinstance(child, K)] for a subclass [K] of [MaterialCollection], and
    [isinstance(child, Side)]. *)
Definition isinstance (h : heap) (child : loc) (k : kind) : bool :=
  match h !! child with
  | Some (OCollection c) => bool_decide (c_kind c = k)
  | _ => false
  end.

Definition isinstance_Side (h : heap) (child : loc) : bool :=
  match h !! child with
  | Some (OSide _) => true
  | _ => false
  end.

Definition write (l : loc) (o : object) : M unit :=
  fun h => (inr tt, <[l := o]> h).

(** ** Material *)

(** [Material.calculate_thermal_conductivity_insulance] *)
Definition Material_calculate_thermal_conductivity_insulance
    (self : loc) (h : heap) : result Qc :=
  let? m := as_material self h in
  py_truediv (m_thickness m) (m_thermal_conductivity m).

(** ** MaterialCollection *)

(** The call [material.calculate_thermal_conductivity_insulance()] on a
    member of [self.materials]. *)
Definition call_calculate_thermal_conductivity_insulance
    (target : loc) (h : heap) : result Qc :=
  match h !! target with
  | Some (OMaterial _) => Material_calculate_thermal_conductivity_insulance target h
  | Some (OCollection _) => inl Unsupported
  | Some _ => inl AttributeError
  | None => inl Unsupported
  end.

(** The loop of [MaterialCollection.calculate_thermal_conductivity_insulance],
    with its accumulator. *)
Fixpoint insulance_loop (h : heap) (ms : list loc) (acc : Qc) : result Qc :=
  match ms with
  | [] => inr acc
  | m :: ms' =>
      let? r := call_calculate_thermal_conductivity_insulance m h in
      insulance_loop h ms' (acc + r)
  end.

(** [MaterialCollection.calculate_thermal_conductivity_insulance] *)
Definition MaterialCollection_calculate_thermal_conductivity_insulance
    (self : loc) (h : heap) : result Qc :=
  let? c := as_collection self h in
  insulance_loop h (c_materials c) 0.

(** [MaterialCollection.calculate_thermal_insulance] *)
Definition MaterialCollection_calculate_thermal_insulance
    (self : loc) (h : heap) : result Qc :=
  let? thermal_conductivity_insulance :=
    MaterialCollection_calculate_thermal_conductivity_insulance self h in
  let thermal_inside_convection_insulance := 1 / Qc_of_Z 10 in
  let thermal_outside_convection_insulance := 1 / Qc_of_Z 80 in
  inr (thermal_conductivity_insulance + thermal_inside_convection_insulance
       + thermal_outside_convection_insulance).

(** [Floor.calculate_thermal_insulance] *)
Definition Floor_calculate_thermal_insulance (self : loc) (h : heap) : result Qc :=
  let? thermal_conductivity_insulance :=
    MaterialCollection_calculate_thermal_conductivity_insulance self h in
  let thermal_inside_convection_insulance := 1 / Qc_of_Z 10 in
  inr (thermal_conductivity_insulance + thermal_inside_convection_insulance).

(** The call [self.calculate_thermal_insulance()]: [Floor] overrides the
    method, the other classes inherit it. *)
Definition call_calculate_thermal_insulance (self : loc) (h : heap) : result Qc :=
  let? c := as_collection self h in
  match c_kind c with
  | KFloor => Floor_calculate_thermal_insulance self h
  | _ => MaterialCollection_calculate_thermal_insulance self h
  end.

(** [MaterialCollection.calculate_flux_surface]; the argument defaults to 0. *)
Definition MaterialCollection_calculate_flux_surface
    (self : loc) (temperature_variation : option value) (h : heap) : result Qc :=
  let temperature_variation := default (VNum 0) temperature_variation in
  let? insulance := call_calculate_thermal_insulance self h in
  value_truediv temperature_variation insulance.

(** [MaterialCollection.calculate_flux] *)
Definition MaterialCollection_calculate_flux
    (self : loc) (temperature_variation : option value) (h : heap) : result Qc :=
  let temperature_variation := default (VNum 0) temperature_variation in
  let? flux_surface :=
    MaterialCollection_calculate_flux_surface self (Some temperature_variation) h in
  let? c := as_collection self h in
  py_mul (Some flux_surface) (c_surface c).

(** [MaterialCollection.add] *)
Definition MaterialCollection_add (self child : loc) : M unit :=
  let* c := read (as_collection self) in
  let* _ := write self (OCollection (Collection_set_materials (c_materials c ++ [child]) c)) in
  setattr_parent child (Some self).

(** [MaterialCollection.remove] *)
Definition MaterialCollection_remove (self child : loc) : M unit :=
  let* c := read (as_collection self) in
  match list_remove child (c_materials c) with
  | None => raise ValueError
  | Some ms =>
      let* _ := write self (OCollection (Collection_set_materials ms c)) in
      setattr_parent child None
  end.

(** ** Roof and Floor *)

(** [Roof.calculate_flux(self, *args)]: the positional arguments arrive as
    the tuple [args], and that tuple is what is handed to the inherited
    method. *)
Definition Roof_calculate_flux (self : loc) (args : list Qc) : M Qc :=
  let* c := read (as_collection self) in
  let* w := read (getattr_width (c_parent c)) in
  let* l := read (getattr_length (c_parent c)) in
  let* s := read (fun _ => py_mul w l) in
  let* _ := setattr_surface (Some self) (Some s) in
  read (MaterialCollection_calculate_flux self (Some (VTuple args))).

(** [Floor.calculate_flux(self, temperature_variation=0)] *)
Definition Floor_calculate_flux (self : loc) (temperature_variation : option Qc) : M Qc :=
  let temperature_variation := default 0 temperature_variation in
  let* c := read (as_collection self) in
  let* w := read (getattr_width (c_parent c)) in
  let* l := read (getattr_length (c_parent c)) in
  let* s := read (fun _ => py_mul w l) in
  let* _ := setattr_surface (Some self) (Some s) in
  read (MaterialCollection_calculate_flux self (Some (VNum temperature_variation))).

(** ** Side *)

(** The call [target.calculate_flux(temperature_variation)] on the wall or on
    an opening of a side, resolved by the class of [target]. *)
Definition call_calculate_flux (target : loc) (temperature_variation : Qc) : M Qc :=
  fun h =>
    match h !! target with
    | Some (OCollection c) =>
        match c_kind c with
        | KRoof => Roof_calculate_flux target [temperature_variation] h
        | KFloor => Floor_calculate_flux target (Some temperature_variation) h
        | _ => read (MaterialCollection_calculate_flux target
                       (Some (VNum temperature_variation))) h
        end
    | Some (OMaterial _) => (inl AttributeError, h)
    | _ => (inl Unsupported, h)
    end.

(** [[opening.surface for opening in self.openings]] *)
Fixpoint getattr_surfaces (h : heap) (os : list loc) : result (list (option Qc)) :=
  match os with
  | [] => inr []
  | o :: os' =>
      let? s := getattr_surface o h in
      let? ss := getattr_surfaces h os' in
      inr (s :: ss)
  end.

(** The loop [for opening in self.openings: flux += ...]. *)
Fixpoint flux_loop (temperature_variation : Qc) (os : list loc) (flux : Qc) : M Qc :=
  match os with
  | [] => ret flux
  | o :: os' =>
      let* f := call_calculate_flux o temperature_variation in
      flux_loop temperature_variation os' (flux + f)
  end.

(** [Side.calculate_flux(self, temperature_variation=0)].  The method assigns
    no attribute of the side itself, so its attributes are read once. *)
Definition Side_calculate_flux (self : loc) (temperature_variation : option Qc) : M Qc :=
  let temperature_variation := default 0 temperature_variation in
  let* sd := read (as_side self) in
  let* openings_surfaces := read (fun h => getattr_surfaces h (s_openings sd)) in
  let* twice_height := read (fun _ => py_mul (Some 2) (s_height sd)) in
  let* w := read (getattr_width (s_parent sd)) in
  let* l := read (getattr_length (s_parent sd)) in
  let* perimeter := read (fun _ => py_add w l) in
  let* total := read (fun _ => py_sum openings_surfaces) in
  let* _ := setattr_surface (s_wall sd) (Some (twice_height * perimeter - total)) in
  let flux := 0 in
  let* f :=
    match s_wall sd with
    | Some wl => call_calculate_flux wl temperature_variation
    | None => raise AttributeError
    end in
  let flux := flux + f in
  flux_loop temperature_variation (s_openings sd) flux.

(** [Side.add] *)
Definition Side_add (self child : loc) : M unit :=
  fun h =>
    if isinstance h child KWall then
      (let* sd := read (as_side self) in
       let* _ := write self (OSide (Side_set_wall (Some child) sd)) in
       setattr_parent child (Some self)) h
    else if isinstance h child KOpening then
      (let* sd := read (as_side self) in
       let* _ := write self (OSide (Side_set_openings (s_openings sd ++ [child]) sd)) in
       setattr_parent child (Some self)) h
    else (inr tt, h).

(** [Side.remove] *)
Definition Side_remove (self child : loc) : M unit :=
  fun h =>
    if isinstance h child KWall then
      (let* sd := read (as_side self) in
       let* _ := write self (OSide (Side_set_wall None sd)) in
       setattr_parent child None) h
    else if isinstance h child KOpening then
      (let* sd := read (as_side self) in
       match list_remove child (s_openings sd) with
       | None => raise ValueError
       | Some os =>
           let* _ := write self (OSide (Side_set_openings os sd)) in
           setattr_parent child None
       end) h
    else (inr tt, h).

(** ** Building *)

(** The call [target.calculate_flux(temperature_variation)] on what a slot of
    the building holds. *)
Definition call_child_calculate_flux
    (target : option loc) (temperature_variation : Qc) : M Qc :=
  fun h =>
    match target with
    | None => (inl AttributeError, h)
    | Some l =>
        match h !! l with
        | Some (OSide _) => Side_calculate_flux l (Some temperature_variation) h
        | Some (OCollection _) => call_calculate_flux l temperature_variation h
        | Some (OMaterial _) => (inl AttributeError, h)
        | _ => (inl Unsupported, h)
        end
    end.

(** [Building.calculate_flux(self, temperature_inside=20,
    temperature_outside=10, temperature_underground=15)] *)
Definition Building_calculate_flux (self : loc)
    (temperature_inside temperature_outside temperature_underground : option Qc)
    : M Qc :=
  let temperature_inside := default (Qc_of_Z 20) temperature_inside in
  let temperature_outside := default (Qc_of_Z 10) temperature_outside in
  let temperature_underground := default (Qc_of_Z 15) temperature_underground in
  let flux := 0 in
  let temperature_between_in_and_out := Qcabs (temperature_inside - temperature_outside) in
  let* b := read (as_building self) in
  let* f := call_child_calculate_flux (b_roof b) temperature_between_in_and_out in
  let flux := flux + f in
  let* b := read (as_building self) in
  let* f := call_child_calculate_flux (b_side b) temperature_between_in_and_out in
  let flux := flux + f in
  let temperature_between_in_and_underground :=
    Qcabs (temperature_inside - temperature_underground) in
  let* b := read (as_building self) in
  let* f := call_child_calculate_flux (b_floor b) temperature_between_in_and_underground in
  let flux := flux + f in
  ret flux.

(** [Building.add] *)
Definition Building_add (self child : loc) : M unit :=
  fun h =>
    if isinstance h child KRoof then
      (let* b := read (as_building self) in
       let* _ := write self (OBuilding (Building_set_roof (Some child) b)) in
       setattr_parent child (Some self)) h
    else if isinstance_Side h child then
      (let* b := read (as_building self) in
       let* _ := write self (OBuilding (Building_set_side (Some child) b)) in
       setattr_parent child (Some self)) h
    else if isinstance h child KFloor then
      (let* b := read (as_building self) in
       let* _ := write self (OBuilding (Building_set_floor (Some child) b)) in
       setattr_parent child (Some self)) h
    else (inr tt, h).

(** [Building.remove] *)
Definition Building_remove (self child : loc) : M unit :=
  fun h =>
    if isinstance h child KRoof then
      (let* b := read (as_building self) in
       let* _ := write self (OBuilding (Building_set_roof None b)) in
       setattr_parent child None) h
    else if isinstance_Side h child then
      (let* b := read (as_building self) in
       let* _ := write self (OBuilding (Building_set_side None b)) in
       setattr_parent child None) h
    else if isinstance h child KFloor then
      (let* b := read (as_building self) in
       let* _ := write self (OBuilding (Building_set_floor None b)) in
       setattr_parent child None) h
    else (inr tt, h).

(** ** Constructors

    The objects the constructors make when they are given no children (the
    default arguments [materials=[]], [wall=None], [openings=[]], [roof=None],
    [side=None], [floor=None]); children are then attached with [add]. *)

Definition Material_init (thermal_conductivity thickness : option Qc) : object :=
  OMaterial (mkMaterial None thermal_conductivity thickness).

Definition MaterialCollection_init (k : kind) : object :=
  OCollection (mkCollection k None None []).

Definition Opening_init (surface : option Qc) : object :=
  OCollection (mkCollection KOpening None surface []).

Definition Side_init (height : option Qc) : object :=
  OSide (mkSide None height None []).

Definition Building_init (width length : option Qc) : object :=
  OBuilding (mkBuilding width length None None None).

(** ** Constructors with children

    [__init__] makes the object, then attaches the children it is given with
    [add].  A new object gets a reference no object of the store has. *)

Definition alloc (o : object) : M loc :=
  fun h => let l := fresh (dom h) in (inr l, <[l := o]> h).

(** [for child in children: self.add(child)] *)
Fixpoint add_each (add : loc -> loc -> M unit) (self : loc) (children : list loc)
    : M unit :=
  match children with
  | [] => ret tt
  | child :: children' =>
      let* _ := add self child in
      add_each add self children'
  end.

(** [MaterialCollection.__init__(self, materials)], which [Roof], [Floor]
    and [Wall] inherit. *)
Definition MaterialCollection_construct (k : kind) (materials : list loc) : M loc :=
  let* self := alloc (MaterialCollection_init k) in
  let* _ := add_each MaterialCollection_add self materials in
  ret self.

(** [Side.__init__(self, height, wall, openings)].  [self.openings] is
    assigned only after [wall] has been added: an [Opening] passed as [wall]
    makes [add] append to an attribute that does not exist yet. *)
Definition Side_construct
    (height : option Qc) (wall : option loc) (openings : list loc) : M loc :=
  let* self := alloc (Side_init height) in
  let* _ :=
    match wall with
    | None => ret tt
    | Some w =>
        fun h =>
          if isinstance h w KWall then Side_add self w h
          else if isinstance h w KOpening then (inl AttributeError, h)
          else (inr tt, h)
    end in
  let* _ := add_each Side_add self openings in
  ret self.

(** [Building.__init__(self, width, length, roof, side, floor)]: each slot is
    set to [None] just before the matching argument is added. *)
Definition Building_construct
    (width length : option Qc) (roof side floor : option loc) : M loc :=
  let add_if (self : loc) (child : option loc) : M unit :=
    match child with
    | None => ret tt
    | Some c => Building_add self c
    end in
  let* self := alloc (Building_init width length) in
  let* _ := add_if self roof in
  let* b := read (as_building self) in
  let* _ := write self (OBuilding (Building_set_side None b)) in
  let* _ := add_if self side in
  let* b := read (as_building self) in
  let* _ := write self (OBuilding (Building_set_floor None b)) in
  let* _ := add_if self floor in
  ret self.

(** ** modify

    [modify(variable, value)] stores [value] under the name [variable] in the
    attribute dictionary of the object.  [Material], [Opening], [Side] and
    [Building] define it; [MaterialCollection], [Roof], [Floor] and [Wall]
    do not.  The store follows the attributes of the constructors with the
    values they are meant for: a number or [None] for a quantity, a reference
    or [None] for a parent or a slot, a list of references for a sequence.
    Any other name or value is [Unsupported]. *)

Inductive pyvalue : Type :=
  | PNone
  | PNum (q : Qc)
  | PRef (l : loc)
  | PList (ls : list loc).

Definition as_quantity (v : pyvalue) : result (option Qc) :=
  match v with
  | PNone => inr None
  | PNum q => inr (Some q)
  | _ => inl Unsupported
  end.

Definition as_reference (v : pyvalue) : result (option loc) :=
  match v with
  | PNone => inr None
  | PRef l => inr (Some l)
  | _ => inl Unsupported
  end.

Definition as_references (v : pyvalue) : result (list loc) :=
  match v with
  | PList ls => inr ls
  | _ => inl Unsupported
  end.

(** [Material.modify] *)
Definition Material_modify (self : loc) (variable : string) (value : pyvalue) : M unit :=
  let* m := read (as_material self) in
  if decide (variable = "parent") then
    let* v := read (fun _ => as_reference value) in
    write self (OMaterial (Material_set_parent v m))
  else if decide (variable = "thermal_conductivity") then
    let* v := read (fun _ => as_quantity value) in
    write self (OMaterial (mkMaterial (m_parent m) v (m_thickness m)))
  else if decide (variable = "thickness") then
    let* v := read (fun _ => as_quantity value) in
    write self (OMaterial (mkMaterial (m_parent m) (m_thermal_conductivity m) v))
  else raise Unsupported.

(** [Opening.modify] *)
Definition Opening_modify (self : loc) (variable : string) (value : pyvalue) : M unit :=
  let* c := read (as_collection self) in
  if decide (variable = "parent") then
    let* v := read (fun _ => as_reference value) in
    write self (OCollection (Collection_set_parent v c))
  else if decide (variable = "surface") then
    let* v := read (fun _ => as_quantity value) in
    write self (OCollection (Collection_set_surface v c))
  else if decide (variable = "materials") then
    let* v := read (fun _ => as_references value) in
    write self (OCollection (Collection_set_materials v c))
  else raise Unsupported.

(** [Side.modify] *)
Definition Side_modify (self : loc) (variable : string) (value : pyvalue) : M unit :=
  let* s := read (as_side self) in
  if decide (variable = "parent") then
    let* v := read (fun _ => as_reference value) in
    write self (OSide (Side_set_parent v s))
  else if decide (variable = "height") then
    let* v := read (fun _ => as_quantity value) in
    write self (OSide (mkSide (s_parent s) v (s_wall s) (s_openings s)))
  else if decide (variable = "wall") then
    let* v := read (fun _ => as_reference value) in
    write self (OSide (Side_set_wall v s))
  else if decide (variable = "openings") then
    let* v := read (fun _ => as_references value) in
    write self (OSide (Side_set_openings v s))
  else raise Unsupported.

(** [Building.modify] *)
Definition Building_modify (self : loc) (variable : string) (value : pyvalue) : M unit :=
  let* b := read (as_building self) in
  if decide (variable = "width") then
    let* v := read (fun _ => as_quantity value) in
    write self (OBuilding (mkBuilding v (b_length b) (b_roof b) (b_side b) (b_floor b)))
  else if decide (variable = "length") then
    let* v := read (fun _ => as_quantity value) in
    write self (OBuilding (mkBuilding (b_width b) v (b_roof b) (b_side b) (b_floor b)))
  else if decide (variable = "roof") then
    let* v := read (fun _ => as_reference value) in
    write self (OBuilding (Building_set_roof v b))
  else if decide (variable = "side") then
    let* v := read (fun _ => as_reference value) in
    write self (OBuilding (Building_set_side v b))
  else if decide (variable = "floor") then
    let* v := read (fun _ => as_reference value) in
    write self (OBuilding (Building_set_floor v b))
  else raise Unsupported.

(** The call [target.modify(variable, value)], resolved by the class of
    [target]. *)
Definition call_modify (target : loc) (variable : string) (value : pyvalue) : M unit :=
  fun h =>
    match h !! target with
    | Some (OMaterial _) => Material_modify target variable value h
    | Some (OCollection c) =>
        match c_kind c with
        | KOpening => Opening_modify target variable value h
        | _ => (inl AttributeError, h)
        end
    | Some (OSide _) => Side_modify target variable value h
    | Some (OBuilding _) => Building_modify target variable value h
    | None => (inl Unsupported, h)
    end.

(** ** A sample building

    [Building(width=5, length=4)] with a roof, a floor and a side of height
    3; the side has a wall and one opening of surface 2.  Every collection
    holds one material of thickness 1/10 and conductivity 1/2 (conductive
    insulance 1/5).  Six more objects are attached to nothing. *)
Module Sample.

Definition building : loc := 1%positive.
Definition roof : loc := 2%positive.
Definition side : loc := 3%positive.
Definition floor : loc := 4%positive.
Definition wall : loc := 5%positive.
Definition opening : loc := 6%positive.
Definition roof_material : loc := 7%positive.
Definition floor_material : loc := 8%positive.
Definition wall_material : loc := 9%positive.
Definition opening_material : loc := 10%positive.
Definition spare_wall : loc := 11%positive.
Definition spare_opening : loc := 12%positive.
Definition spare_material : loc := 13%positive.
Definition spare_roof : loc := 14%positive.
Definition spare_side : loc := 15%positive.
Definition spare_floor : loc := 16%positive.

Definition layer : object :=
  Material_init (Some (Q2Qc (1 # 2))) (Some (Q2Qc (1 # 10))).

(** The objects as the constructors make them. *)
Definition fresh : heap :=
  list_to_map
    [ (building, Building_init (Some (Qc_of_Z 5)) (Some (Qc_of_Z 4)));
      (roof, MaterialCollection_init KRoof);
      (side, Side_init (Some (Qc_of_Z 3)));
      (floor, MaterialCollection_init KFloor);
      (wall, MaterialCollection_init KWall);
      (opening, Opening_init (Some (Qc_of_Z 2)));
      (roof_material, layer);
      (floor_material, layer);
      (wall_material, layer);
      (opening_material, layer);
      (spare_wall, MaterialCollection_init KWall);
      (spare_opening, Opening_init (Some 1));
      (spare_material, Material_init (Some 1) (Some 1));
      (spare_roof, MaterialCollection_init KRoof);
      (spare_side, Side_init (Some 1));
      (spare_floor, MaterialCollection_init KFloor) ].

(** The calls that assemble the building. *)
Definition assemble : M unit :=
  let* _ := MaterialCollection_add roof roof_material in
  let* _ := MaterialCollection_add floor floor_material in
  let* _ := MaterialCollection_add wall wall_material in
  let* _ := MaterialCollection_add opening opening_material in
  let* _ := Side_add side wall in
  let* _ := Side_add side opening in
  let* _ := Building_add building roof in
  let* _ := Building_add building side in
  Building_add building floor.

Definition attached (parent : loc) : object :=
  OMaterial (mkMaterial (Some parent) (Some (Q2Qc (1 # 2))) (Some (Q2Qc (1 # 10)))).

(** The store they leave. *)
Definition store : heap :=
  list_to_map
    [ (building, OBuilding (mkBuilding (Some (Qc_of_Z 5)) (Some (Qc_of_Z 4))
                              (Some roof) (Some side) (Some floor)));
      (roof, OCollection (mkCollection KRoof (Some building) None [roof_material]));
      (side, OSide (mkSide (Some building) (Some (Qc_of_Z 3)) (Some wall) [opening]));
      (floor, OCollection (mkCollection KFloor (Some building) None [floor_material]));
      (wall, OCollection (mkCollection KWall (Some side) None [wall_material]));
      (opening, OCollection (mkCollection KOpening (Some side) (Some (Qc_of_Z 2))
                               [opening_material]));
      (roof_material, attached roof);
      (floor_material, attached floor);
      (wall_material, attached wall);
      (opening_material, attached opening);
      (spare_wall, MaterialCollection_init KWall);
      (spare_opening, Opening_init (Some 1));
      (spare_material, Material_init (Some 1) (Some 1));
      (spare_roof, MaterialCollection_init KRoof);
      (spare_side, Side_init (Some 1));
      (spare_floor, MaterialCollection_init KFloor) ].

End Sample.

(** * Vocabulary of the properties *)

(** ** Sums and configurations *)

Fixpoint sum_Qc (xs : list Qc) : Qc :=
  match xs with
  | [] => 0
  | x :: xs' => x + sum_Qc xs'
  end.

(** [m] is a material of thickness [t] and conductivity [k]. *)
Definition is_layer (h : heap) (m : loc) (t k : Qc) : Prop :=
  exists p, h !! m = Some (OMaterial (mkMaterial p (Some k) (Some t))).

(** The situation of a roof or floor [self] attached to a building whose
    dimensions are set. *)
Definition attached_to_building
    (h : heap) (self : loc) (c : Collection) (w l : Qc) : Prop :=
  h !! self = Some (OCollection c) /\
  exists b bd, c_parent c = Some b /\ h !! b = Some (OBuilding bd) /\
               b_width bd = Some w /\ b_length bd = Some l.

(** [o] is an opening of surface [s] whose thermal insulance is [i]. *)
Definition is_opening (h : heap) (o : loc) (s i : Qc) : Prop :=
  exists oc, h !! o = Some (OCollection oc) /\ c_kind oc = KOpening /\
             c_surface oc = Some s /\
             call_calculate_thermal_insulance o h = inr i /\ i <> 0.

(** The side [self], of height [hgt], holds the wall [w] and belongs to a
    building of width [bw] and length [bl]. *)
Definition side_configured (h : heap) (self : loc) (sd : Side)
    (hgt bw bl : Qc) (w : loc) (wc : Collection) : Prop :=
  h !! self = Some (OSide sd) /\ s_height sd = Some hgt /\ s_wall sd = Some w /\
  h !! w = Some (OCollection wc) /\ c_kind wc = KWall /\
  exists b bd, s_parent sd = Some b /\ h !! b = Some (OBuilding bd) /\
               b_width bd = Some bw /\ b_length bd = Some bl.

(** The materials [ms] are layers of thicknesses and conductivities
    [layers], with positive conductivities. *)
Definition are_layers (h : heap) (ms : list loc) (layers : list (Qc * Qc)) : Prop :=
  Forall2 (fun m tk => is_layer h m tk.1 tk.2 /\ 0 < tk.2) ms layers.

Definition conductive_sum (layers : list (Qc * Qc)) : Qc :=
  sum_Qc ((fun tk => tk.1 / tk.2) <$> layers).

(** The convective terms a collection of kind [k] adds. *)
Definition convective_terms (k : kind) : Qc :=
  match k with
  | KFloor => Q2Qc (1 # 10)
  | _ => Q2Qc (1 # 10) + Q2Qc (1 # 80)
  end.

(** The openings [os] are collections whose surface attributes hold [ss]. *)
Definition openings_surfaces (h : heap) (os : list loc) (ss : list (option Qc)) : Prop :=
  Forall2 (fun o s => exists oc, h !! o = Some (OCollection oc) /\ c_surface oc = s) os ss.

(** What [Roof.calculate_flux] and [Floor.calculate_flux] share: derive the
    surface from the parent, assign it, then evaluate [finish] in the store
    so obtained. *)
Definition derive_surface_then (self : loc) (finish : heap -> result Qc) : M Qc :=
  let* c := read (as_collection self) in
  let* w := read (getattr_width (c_parent c)) in
  let* l := read (getattr_length (c_parent c)) in
  let* s := read (fun _ => py_mul w l) in
  let* _ := setattr_surface (Some self) (Some s) in
  read finish.

(** ** What a store says about an object *)

(** [l.parent] holds [p]. *)
Definition parent_is (h : heap) (l : loc) (p : option loc) : Prop :=
  match h !! l with
  | Some (OMaterial m) => m_parent m = p
  | Some (OCollection c) => c_parent c = p
  | Some (OSide s) => s_parent s = p
  | _ => False
  end.

Definition materials_of (h : heap) (c : loc) : list loc :=
  match h !! c with
  | Some (OCollection cc) => c_materials cc
  | _ => []
  end.

Definition wall_of (h : heap) (s : loc) : option loc :=
  match h !! s with
  | Some (OSide sd) => s_wall sd
  | _ => None
  end.

Definition openings_of (h : heap) (s : loc) : list loc :=
  match h !! s with
  | Some (OSide sd) => s_openings sd
  | _ => []
  end.

Definition roof_of (h : heap) (b : loc) : option loc :=
  match h !! b with
  | Some (OBuilding bd) => b_roof bd
  | _ => None
  end.

Definition side_of (h : heap) (b : loc) : option loc :=
  match h !! b with
  | Some (OBuilding bd) => b_side bd
  | _ => None
  end.

Definition floor_of (h : heap) (b : loc) : option loc :=
  match h !! b with
  | Some (OBuilding bd) => b_floor bd
  | _ => None
  end.

(** [add parent child] attaches and [remove parent child] then detaches:
    after [add] the child's back-reference is the parent and the parent
    [holds] the child; after the following [remove] the back-reference is
    [None] and the parent no longer holds the child. *)
Definition add_remove_paired
    (add remove : loc -> loc -> M unit) (holds : heap -> loc -> loc -> Prop)
    (h : heap) (parent child : loc) : Prop :=
  exists h1 h2,
    add parent child h = (inr tt, h1)
    /\ parent_is h1 child (Some parent) /\ holds h1 parent child
    /\ remove parent child h1 = (inr tt, h2)
    /\ parent_is h2 child None /\ ~ holds h2 parent child.

(** ** Tactics *)

Ltac run_method :=
  unfold bind, read, write, raise, setattr_parent,
    as_collection, as_side, as_building; simpl.

Ltac distinct_objects :=
  match goal with
  | H1 : ?h !! ?a = Some _, H2 : ?h !! ?b = Some _ |- ?a <> ?b =>
      let E := fresh in intros E; rewrite E in H1; rewrite H1 in H2; discriminate
  end.

Ltac lookups :=
  repeat first [ rewrite lookup_insert_eq
               | rewrite lookup_insert_ne by (done || distinct_objects) ].

Ltac observe :=
  unfold parent_is, materials_of, wall_of, openings_of, roof_of, side_of, floor_of;
  lookups; simpl.

Ltac run_modify :=
  unfold call_modify, Material_modify, Opening_modify, Side_modify, Building_modify,
    bind, read, write, raise, as_material, as_collection, as_side, as_building.

(** * Properties *)

(** ** The sample store *)

Lemma Sample_assembled : Sample.assemble Sample.fresh = (inr tt, Sample.store).
Proof. apply (bool_decide_eq_true_1 _). vm_compute. reflexivity. Qed.

(** ** Numbers *)

Lemma tenth_decimal : 1 / Qc_of_Z 10 = Q2Qc (1 # 10).
Proof. apply Qc_is_canon. reflexivity. Qed.

Lemma eightieth_fraction : 1 / Qc_of_Z 80 = Q2Qc (1 # 80).
Proof. apply Qc_is_canon. reflexivity. Qed.

Lemma py_sum_from_total (acc : Qc) (xs : list Qc) :
  py_sum_from acc (Some <$> xs) = inr (acc + sum_Qc xs).
Proof.
  revert acc. induction xs as [|x xs IH]; intros acc; simpl.
  - f_equal. ring.
  - rewrite IH. f_equal. ring.
Qed.

Lemma py_sum_total (xs : list Qc) : py_sum (Some <$> xs) = inr (sum_Qc xs).
Proof. unfold py_sum. rewrite py_sum_from_total. f_equal. ring. Qed.

(** ** Conductive insulance *)

Lemma Material_insulance_layer (h : heap) (m : loc) (t k : Qc) :
  is_layer h m t k -> k <> 0 ->
  call_calculate_thermal_conductivity_insulance m h = inr (t / k).
Proof.
  intros [p Hm] Hk.
  unfold call_calculate_thermal_conductivity_insulance,
    Material_calculate_thermal_conductivity_insulance, as_material.
  rewrite Hm. unfold py_truediv. simpl.
  destruct (decide (k = 0)); [contradiction | reflexivity].
Qed.

Lemma Qclt_0_neq (k : Qc) : 0 < k -> k <> 0.
Proof. intros Hlt ->. exact (Qclt_not_eq _ _ Hlt eq_refl). Qed.

Lemma insulance_loop_layers (h : heap) (ms : list loc) (layers : list (Qc * Qc)) :
  Forall2 (fun m tk => is_layer h m tk.1 tk.2 /\ 0 < tk.2) ms layers ->
  forall acc,
    insulance_loop h ms acc = inr (acc + sum_Qc ((fun tk => tk.1 / tk.2) <$> layers)).
Proof.
  induction 1 as [|m [t k] ms layers [Hm Hk] _ IH]; intros acc; csimpl.
  - f_equal. ring.
  - rewrite (Material_insulance_layer h m t k Hm (Qclt_0_neq k Hk)). csimpl.
    rewrite IH. f_equal. ring.
Qed.

(** C7.  A collection whose materials have thicknesses and (positive)
    conductivities [(t1,k1) ... (tn,kn)] has conductive insulance
    [t1/k1 + ... + tn/kn]; a collection without materials has conductive
    insulance 0. *)
Theorem conductive_insulance_additive (h : heap) (self : loc) (c : Collection) :
  h !! self = Some (OCollection c) ->
  (forall layers : list (Qc * Qc),
      Forall2 (fun m tk => is_layer h m tk.1 tk.2 /\ 0 < tk.2) (c_materials c) layers ->
      MaterialCollection_calculate_thermal_conductivity_insulance self h
      = inr (sum_Qc ((fun tk => tk.1 / tk.2) <$> layers)))
  /\ (c_materials c = [] ->
      MaterialCollection_calculate_thermal_conductivity_insulance self h = inr 0).
Proof.
  intros Hself.
  unfold MaterialCollection_calculate_thermal_conductivity_insulance, as_collection.
  rewrite Hself. simpl. split.
  - intros layers Hl. rewrite (insulance_loop_layers h _ layers Hl). f_equal. ring.
  - intros ->. reflexivity.
Qed.

Lemma conductive_insulance_additive_witness :
  MaterialCollection_calculate_thermal_conductivity_insulance Sample.wall Sample.store
  = inr (sum_Qc [Q2Qc (1 # 10) / Q2Qc (1 # 2)]).
Proof.
  refine (proj1 (conductive_insulance_additive Sample.store Sample.wall _ eq_refl)
            [(Q2Qc (1 # 10), Q2Qc (1 # 2))] _).
  repeat constructor. exists (Some Sample.wall). reflexivity.
Defined.

(** ** Thermal insulance *)

(** C6.  On a collection whose conductive insulance is [ci], the inherited
    [calculate_thermal_insulance] returns [ci + 1/10 + 1/80], that is
    [ci + 0.1 + 0.0125], and the method of [Floor] returns [ci + 1/10], with no
    outdoor term; a call on an object resolves to the method of [Floor]
    exactly when the object is a [Floor]. *)
Theorem thermal_insulance_composition (h : heap) (self : loc) (c : Collection) (ci : Qc) :
  h !! self = Some (OCollection c) ->
  MaterialCollection_calculate_thermal_conductivity_insulance self h = inr ci ->
  MaterialCollection_calculate_thermal_insulance self h
    = inr (ci + Q2Qc (1 # 10) + Q2Qc (1 # 80))
  /\ Q2Qc (1 # 80) = Q2Qc (125 # 10000)
  /\ Floor_calculate_thermal_insulance self h = inr (ci + Q2Qc (1 # 10))
  /\ (c_kind c <> KFloor ->
      call_calculate_thermal_insulance self h
        = inr (ci + Q2Qc (1 # 10) + Q2Qc (1 # 80)))
  /\ (c_kind c = KFloor ->
      call_calculate_thermal_insulance self h = inr (ci + Q2Qc (1 # 10))).
Proof.
  intros Hself Hci.
  assert (Hbase : MaterialCollection_calculate_thermal_insulance self h
                  = inr (ci + Q2Qc (1 # 10) + Q2Qc (1 # 80))).
  { unfold MaterialCollection_calculate_thermal_insulance. rewrite Hci.
    cbv beta zeta iota delta [rbind].
    rewrite tenth_decimal, eightieth_fraction. reflexivity. }
  assert (Hfloor : Floor_calculate_thermal_insulance self h = inr (ci + Q2Qc (1 # 10))).
  { unfold Floor_calculate_thermal_insulance. rewrite Hci.
    cbv beta zeta iota delta [rbind].
    rewrite tenth_decimal. reflexivity. }
  repeat split; try assumption.
  - apply Qc_is_canon. reflexivity.
  - intros Hk. unfold call_calculate_thermal_insulance, as_collection.
    rewrite Hself. simpl. destruct (c_kind c); congruence.
  - intros Hk. unfold call_calculate_thermal_insulance, as_collection.
    rewrite Hself. simpl. rewrite Hk. exact Hfloor.
Qed.

Lemma thermal_insulance_composition_witness :
  call_calculate_thermal_insulance Sample.roof Sample.store
    = inr (Q2Qc (1 # 5) + Q2Qc (1 # 10) + Q2Qc (1 # 80))
  /\ call_calculate_thermal_insulance Sample.floor Sample.store
    = inr (Q2Qc (1 # 5) + Q2Qc (1 # 10)).
Proof.
  split.
  - refine (proj1 (proj2 (proj2 (proj2
      (thermal_insulance_composition Sample.store Sample.roof _ (Q2Qc (1 # 5))
         eq_refl _)))) _).
    + apply (bool_decide_eq_true_1 _). vm_compute. reflexivity.
    + discriminate.
  - refine (proj2 (proj2 (proj2 (proj2
      (thermal_insulance_composition Sample.store Sample.floor _ (Q2Qc (1 # 5))
         eq_refl _)))) eq_refl).
    apply (bool_decide_eq_true_1 _). vm_compute. reflexivity.
Defined.

(** Assigning the surface of a collection changes no insulance. *)
Section SurfaceFrame.
Variables (h : heap) (w : loc) (wc : Collection) (v : option Qc).
Hypothesis Hw : h !! w = Some (OCollection wc).

Local Abbreviation h' := (<[w := OCollection (Collection_set_surface v wc)]> h).

Lemma material_insulance_set_surface (m : loc) :
  call_calculate_thermal_conductivity_insulance m h'
  = call_calculate_thermal_conductivity_insulance m h.
Proof.
  unfold call_calculate_thermal_conductivity_insulance,
    Material_calculate_thermal_conductivity_insulance, as_material.
  destruct (decide (w = m)) as [<-|Hne].
  - rewrite lookup_insert_eq, Hw. reflexivity.
  - rewrite lookup_insert_ne by done. reflexivity.
Qed.

Lemma insulance_loop_set_surface (ms : list loc) (acc : Qc) :
  insulance_loop h' ms acc = insulance_loop h ms acc.
Proof.
  revert acc. induction ms as [|m ms IH]; intros acc; simpl; [done|].
  rewrite material_insulance_set_surface.
  destruct (call_calculate_thermal_conductivity_insulance m h); simpl; [done|].
  apply IH.
Qed.

Lemma conductive_insulance_set_surface (l : loc) :
  MaterialCollection_calculate_thermal_conductivity_insulance l h'
  = MaterialCollection_calculate_thermal_conductivity_insulance l h.
Proof.
  unfold MaterialCollection_calculate_thermal_conductivity_insulance, as_collection.
  destruct (decide (w = l)) as [<-|Hne].
  - rewrite lookup_insert_eq, Hw. simpl.
    apply insulance_loop_set_surface.
  - rewrite lookup_insert_ne by done.
    destruct (h !! l) as [[]|]; simpl; try done.
    apply insulance_loop_set_surface.
Qed.

Lemma thermal_insulance_set_surface (l : loc) :
  call_calculate_thermal_insulance l h' = call_calculate_thermal_insulance l h.
Proof.
  unfold call_calculate_thermal_insulance, Floor_calculate_thermal_insulance,
    MaterialCollection_calculate_thermal_insulance.
  rewrite !conductive_insulance_set_surface.
  unfold as_collection.
  destruct (decide (w = l)) as [<-|Hne].
  - rewrite lookup_insert_eq, Hw. reflexivity.
  - rewrite lookup_insert_ne by done. reflexivity.
Qed.
End SurfaceFrame.

(** ** Flux of a collection *)

Lemma MaterialCollection_calculate_flux_number
    (h : heap) (self : loc) (c : Collection) (s i dT : Qc) :
  h !! self = Some (OCollection c) ->
  c_surface c = Some s ->
  call_calculate_thermal_insulance self h = inr i ->
  i <> 0 ->
  MaterialCollection_calculate_flux self (Some (VNum dT)) h = inr (dT / i * s).
Proof.
  intros Hself Hs Hi Hnz.
  unfold MaterialCollection_calculate_flux, MaterialCollection_calculate_flux_surface.
  simpl. rewrite Hi. simpl.
  destruct (decide (i = 0)); [contradiction|]. simpl.
  unfold as_collection. rewrite Hself. simpl. rewrite Hs. reflexivity.
Qed.

(** A tuple cannot be divided: whatever the collection, the inherited method
    raises when it is handed one. *)
Lemma MaterialCollection_calculate_flux_tuple (h : heap) (self : loc) (args : list Qc) :
  MaterialCollection_calculate_flux self (Some (VTuple args)) h
  = match call_calculate_thermal_insulance self h with
    | inl e => inl e
    | inr _ => inl TypeError
    end.
Proof.
  unfold MaterialCollection_calculate_flux, MaterialCollection_calculate_flux_surface.
  simpl. destruct (call_calculate_thermal_insulance self h); reflexivity.
Qed.

(** [Roof.calculate_flux] returns in no store and for no arguments: when
    nothing else fails first, the division of the tuple does. *)
Lemma Roof_calculate_flux_raises (h : heap) (self : loc) (args : list Qc) :
  exists e h', Roof_calculate_flux self args h = (inl e, h').
Proof.
  unfold Roof_calculate_flux, bind, read, setattr_surface.
  destruct (as_collection self h) as [e|c]; [by eauto|].
  destruct (getattr_width (c_parent c) h) as [e|w]; [by eauto|].
  destruct (getattr_length (c_parent c) h) as [e|l]; [by eauto|].
  destruct (py_mul w l) as [e|s]; [by eauto|].
  destruct (h !! self) as [[]|]; try by eauto.
  rewrite MaterialCollection_calculate_flux_tuple.
  match goal with |- context [call_calculate_thermal_insulance ?a ?b] =>
    destruct (call_calculate_thermal_insulance a b) end; eauto.
Qed.

Lemma Roof_calculate_flux_attached
    (h : heap) (self : loc) (c : Collection) (w l i : Qc) (args : list Qc) :
  attached_to_building h self c w l ->
  call_calculate_thermal_insulance self h = inr i ->
  Roof_calculate_flux self args h
  = (inl TypeError, <[self := OCollection (Collection_set_surface (Some (w * l)) c)]> h).
Proof.
  intros (Hself & b & bd & Hp & Hb & Hw & Hl) Hi.
  unfold Roof_calculate_flux, bind, read, setattr_surface, as_collection,
    getattr_width, getattr_length.
  rewrite Hself, Hp, Hb, Hw, Hl. simpl.
  rewrite MaterialCollection_calculate_flux_tuple.
  rewrite (thermal_insulance_set_surface h self c _ Hself), Hi. reflexivity.
Qed.

Lemma Floor_calculate_flux_attached
    (h : heap) (self : loc) (c : Collection) (w l i dT : Qc) :
  attached_to_building h self c w l ->
  call_calculate_thermal_insulance self h = inr i ->
  i <> 0 ->
  Floor_calculate_flux self (Some dT) h
  = (inr (dT / i * (w * l)),
     <[self := OCollection (Collection_set_surface (Some (w * l)) c)]> h).
Proof.
  intros (Hself & b & bd & Hp & Hb & Hw & Hl) Hi Hnz.
  unfold Floor_calculate_flux, bind, read, setattr_surface, as_collection,
    getattr_width, getattr_length.
  rewrite Hself, Hp, Hb, Hw, Hl. simpl.
  erewrite MaterialCollection_calculate_flux_number; [reflexivity | | | | exact Hnz].
  - apply lookup_insert_eq.
  - reflexivity.
  - rewrite (thermal_insulance_set_surface h self c _ Hself). exact Hi.
Qed.

(** C1.  On a roof attached to a building of width [w] and length [l],
    [calculate_flux(dT)] does set the surface to [w * l], but then it raises
    [TypeError] in place of returning the value [dT / insulance * (w * l)] of
    the inherited formula, which the inherited method returns in that store
    when it is given the number [dT]. *)
Theorem Roof_calculate_flux_sets_surface_then_raises
    (h : heap) (self : loc) (c : Collection) (w l i dT : Qc) :
  attached_to_building h self c w l ->
  c_kind c = KRoof ->
  call_calculate_thermal_insulance self h = inr i ->
  i <> 0 ->
  let h' := <[self := OCollection (Collection_set_surface (Some (w * l)) c)]> h in
  call_calculate_flux self dT h = (inl TypeError, h')
  /\ Roof_calculate_flux self [dT] h = (inl TypeError, h')
  /\ MaterialCollection_calculate_flux self (Some (VNum dT)) h' = inr (dT / i * (w * l)).
Proof.
  intros Hatt Hk Hi Hnz h'.
  pose proof Hatt as [Hself _].
  assert (Hroof : Roof_calculate_flux self [dT] h = (inl TypeError, h'))
    by exact (Roof_calculate_flux_attached h self c w l i [dT] Hatt Hi).
  split; [|split].
  - unfold call_calculate_flux. rewrite Hself, Hk. exact Hroof.
  - exact Hroof.
  - apply (MaterialCollection_calculate_flux_number h' self
             (Collection_set_surface (Some (w * l)) c)); try done.
    + apply lookup_insert_eq.
    + unfold h'. rewrite (thermal_insulance_set_surface h self c _ Hself). exact Hi.
Qed.

Lemma Sample_roof_attached :
  attached_to_building Sample.store Sample.roof
    (mkCollection KRoof (Some Sample.building) None [Sample.roof_material])
    (Qc_of_Z 5) (Qc_of_Z 4).
Proof.
  split; [reflexivity|].
  eexists Sample.building, _. repeat split; reflexivity.
Qed.

Lemma Sample_floor_attached :
  attached_to_building Sample.store Sample.floor
    (mkCollection KFloor (Some Sample.building) None [Sample.floor_material])
    (Qc_of_Z 5) (Qc_of_Z 4).
Proof.
  split; [reflexivity|].
  eexists Sample.building, _. repeat split; reflexivity.
Qed.

Lemma Roof_calculate_flux_sets_surface_then_raises_witness :
  fst (Roof_calculate_flux Sample.roof [Qc_of_Z 10] Sample.store) = inl TypeError
  /\ getattr_surface Sample.roof
       (snd (Roof_calculate_flux Sample.roof [Qc_of_Z 10] Sample.store))
     = inr (Some (Qc_of_Z 5 * Qc_of_Z 4)).
Proof.
  destruct (Roof_calculate_flux_sets_surface_then_raises
              Sample.store Sample.roof _ (Qc_of_Z 5) (Qc_of_Z 4) (Q2Qc (5 # 16)) (Qc_of_Z 10)
              Sample_roof_attached eq_refl) as (_ & Hroof & _).
  - apply (bool_decide_eq_true_1 _). vm_compute. reflexivity.
  - discriminate.
  - rewrite Hroof. simpl. split; [reflexivity|].
    unfold getattr_surface. rewrite lookup_insert_eq. reflexivity.
Defined.

(** ** Flux of a side *)

Lemma getattr_surfaces_openings (h : heap) (os : list loc) (ops : list (Qc * Qc)) :
  Forall2 (fun o si => is_opening h o si.1 si.2) os ops ->
  getattr_surfaces h os = inr (Some <$> ops.*1).
Proof.
  induction 1 as [|o [s i] os ops (oc & Ho & _ & Hs & _) _ IH]; csimpl; [done|].
  unfold getattr_surface. rewrite Ho, IH. simpl in *. rewrite Hs. reflexivity.
Qed.

Lemma is_opening_set_wall_surface
    (h : heap) (w : loc) (wc : Collection) (v : option Qc) (o : loc) (s i : Qc) :
  h !! w = Some (OCollection wc) -> c_kind wc = KWall ->
  is_opening h o s i ->
  is_opening (<[w := OCollection (Collection_set_surface v wc)]> h) o s i.
Proof.
  intros Hw Hk (oc & Ho & Hko & Hs & Hi & Hnz). exists oc.
  assert (w <> o) by (intros ->; congruence).
  rewrite lookup_insert_ne by done.
  rewrite (thermal_insulance_set_surface h w wc v Hw). done.
Qed.

Lemma call_calculate_flux_opening (h : heap) (o : loc) (s i dT : Qc) :
  is_opening h o s i ->
  call_calculate_flux o dT h = (inr (dT / i * s), h).
Proof.
  intros (oc & Ho & Hk & Hs & Hi & Hnz).
  unfold call_calculate_flux, read. rewrite Ho, Hk.
  by rewrite (MaterialCollection_calculate_flux_number h o oc s i dT).
Qed.

Lemma flux_loop_openings (h : heap) (dT : Qc) (os : list loc) (ops : list (Qc * Qc)) :
  Forall2 (fun o si => is_opening h o si.1 si.2) os ops ->
  forall flux,
    flux_loop dT os flux h
    = (inr (flux + sum_Qc ((fun si => dT / si.2 * si.1) <$> ops)), h).
Proof.
  induction 1 as [|o [s i] os ops Ho _ IH]; intros flux; csimpl.
  - unfold ret. do 2 f_equal. ring.
  - unfold bind. rewrite (call_calculate_flux_opening h o s i dT Ho).
    rewrite IH. do 2 f_equal. simpl. ring.
Qed.

(** C3.  On a configured side, [calculate_flux(dT)] assigns to the wall the
    surface [2 * height * (width + length)] minus the surfaces of the
    openings, and returns the flux of the wall over that surface plus the
    fluxes of the openings; without openings both sums are 0. *)
Theorem Side_calculate_flux_spec
    (h : heap) (self : loc) (sd : Side) (hgt bw bl : Qc)
    (w : loc) (wc : Collection) (iw dT : Qc) (ops : list (Qc * Qc)) :
  side_configured h self sd hgt bw bl w wc ->
  call_calculate_thermal_insulance w h = inr iw ->
  iw <> 0 ->
  Forall2 (fun o si => is_opening h o si.1 si.2) (s_openings sd) ops ->
  let surface := 2 * hgt * (bw + bl) - sum_Qc ops.*1 in
  let h' := <[w := OCollection (Collection_set_surface (Some surface) wc)]> h in
  Side_calculate_flux self (Some dT) h
  = (inr (dT / iw * surface + sum_Qc ((fun si => dT / si.2 * si.1) <$> ops)), h')
  /\ call_calculate_flux w dT h' = (inr (dT / iw * surface), h')
  /\ Forall2 (fun o si => call_calculate_flux o dT h' = (inr (dT / si.2 * si.1), h'))
       (s_openings sd) ops
  /\ (s_openings sd = [] ->
      surface = 2 * hgt * (bw + bl) /\
      Side_calculate_flux self (Some dT) h = (inr (dT / iw * surface), h')).
Proof.
  intros (Hself & Hh & Hwall & Hw & Hk & b & bd & Hp & Hb & Hbw & Hbl) Hi Hnz Hops
    surface h'.
  assert (Hops' : Forall2 (fun o si => is_opening h' o si.1 si.2) (s_openings sd) ops).
  { eapply Forall2_impl; [exact Hops|]. intros o [s i] Ho.
    by apply is_opening_set_wall_surface. }
  assert (Hwflux : call_calculate_flux w dT h' = (inr (dT / iw * surface), h')).
  { unfold call_calculate_flux, read, h'. rewrite lookup_insert_eq. simpl. rewrite Hk.
    erewrite MaterialCollection_calculate_flux_number; [reflexivity | | | | exact Hnz].
    - apply lookup_insert_eq.
    - reflexivity.
    - by rewrite (thermal_insulance_set_surface h w wc _ Hw). }
  assert (Hrun : Side_calculate_flux self (Some dT) h
    = (inr (dT / iw * surface + sum_Qc ((fun si => dT / si.2 * si.1) <$> ops)), h')).
  { unfold Side_calculate_flux, bind, read, setattr_surface, as_side,
      getattr_width, getattr_length.
    rewrite Hself. simpl.
    rewrite (getattr_surfaces_openings h _ ops Hops), Hh, Hp, Hb, Hbw, Hbl. simpl.
    rewrite py_sum_total, Hwall, Hw. fold surface. fold h'.
    rewrite Hwflux, (flux_loop_openings h' dT _ ops Hops').
    do 2 f_equal. ring. }
  split; [exact Hrun|]. split; [exact Hwflux|]. split.
  - eapply Forall2_impl; [exact Hops'|]. intros o [s i] Ho.
    by apply call_calculate_flux_opening.
  - intros Hnil. rewrite Hnil in Hops. apply Forall2_nil_inv_l in Hops.
    assert (Hs : surface = 2 * hgt * (bw + bl)).
    { unfold surface. rewrite Hops. simpl. ring. }
    split; [exact Hs|]. rewrite Hrun, Hops. csimpl. do 2 f_equal. ring.
Qed.

Lemma Sample_side_configured :
  side_configured Sample.store Sample.side
    (mkSide (Some Sample.building) (Some (Qc_of_Z 3)) (Some Sample.wall) [Sample.opening])
    (Qc_of_Z 3) (Qc_of_Z 5) (Qc_of_Z 4) Sample.wall
    (mkCollection KWall (Some Sample.side) None [Sample.wall_material]).
Proof.
  repeat (split; [reflexivity|]).
  eexists Sample.building, _. repeat split; reflexivity.
Qed.

Lemma Sample_opening :
  is_opening Sample.store Sample.opening (Qc_of_Z 2) (Q2Qc (5 # 16)).
Proof.
  eexists. repeat split; try reflexivity.
  - apply (bool_decide_eq_true_1 _). vm_compute. reflexivity.
  - discriminate.
Qed.

(** Width 5, length 4, height 3 and one opening of surface 2: the wall gets
    the surface 52, and the flux for a difference of 10 is 1728. *)
Lemma Side_calculate_flux_spec_witness :
  fst (Side_calculate_flux Sample.side (Some (Qc_of_Z 10)) Sample.store)
    = inr (Qc_of_Z 1728)
  /\ getattr_surface Sample.wall
       (snd (Side_calculate_flux Sample.side (Some (Qc_of_Z 10)) Sample.store))
     = inr (Some (Qc_of_Z 52)).
Proof.
  destruct (Side_calculate_flux_spec Sample.store Sample.side _
              (Qc_of_Z 3) (Qc_of_Z 5) (Qc_of_Z 4) Sample.wall _
              (Q2Qc (5 # 16)) (Qc_of_Z 10) [(Qc_of_Z 2, Q2Qc (5 # 16))]
              Sample_side_configured) as (Hrun & _).
  - apply (bool_decide_eq_true_1 _). vm_compute. reflexivity.
  - discriminate.
  - repeat constructor. exact Sample_opening.
  - rewrite Hrun. simpl. split.
    + f_equal. apply Qc_is_canon. reflexivity.
    + unfold getattr_surface. rewrite lookup_insert_eq. simpl.
      do 2 f_equal. apply Qc_is_canon. reflexivity.
Defined.

(** ** Flux of a building *)

(** What [Building.calculate_flux] does with the results of its three calls,
    whenever they return: it adds them up, in this order. *)
Lemma Building_calculate_flux_sum
    (h h1 h2 h3 : heap) (self : loc) (b : Building) (ti to tu f1 f2 f3 : Qc) :
  h !! self = Some (OBuilding b) ->
  h1 !! self = Some (OBuilding b) ->
  h2 !! self = Some (OBuilding b) ->
  call_child_calculate_flux (b_roof b) (Qcabs (ti - to)) h = (inr f1, h1) ->
  call_child_calculate_flux (b_side b) (Qcabs (ti - to)) h1 = (inr f2, h2) ->
  call_child_calculate_flux (b_floor b) (Qcabs (ti - tu)) h2 = (inr f3, h3) ->
  Building_calculate_flux self (Some ti) (Some to) (Some tu) h
  = (inr (f1 + f2 + f3), h3).
Proof.
  intros H0 H1 H2 Hr Hs Hf.
  unfold Building_calculate_flux, bind, read, ret, as_building. simpl.
  rewrite H0, Hr, H1, Hs, H2, Hf. do 2 f_equal. ring.
Qed.

(** C2.  On a building whose roof slot holds a roof attached to a building of
    width [w] and length [l], [calculate_flux] never gets to the sum of the
    three fluxes: the call on the roof raises [TypeError], leaving the
    surface of the roof set.  The arguments default to 20, 10 and 15. *)
Theorem Building_calculate_flux_raises
    (h : heap) (self : loc) (b : Building) (r : loc) (rc : Collection)
    (w l i : Qc) (ti to tu : option Qc) :
  h !! self = Some (OBuilding b) ->
  b_roof b = Some r ->
  attached_to_building h r rc w l ->
  c_kind rc = KRoof ->
  call_calculate_thermal_insulance r h = inr i ->
  Building_calculate_flux self ti to tu h
  = (inl TypeError, <[r := OCollection (Collection_set_surface (Some (w * l)) rc)]> h)
  /\ Building_calculate_flux self None None None
     = Building_calculate_flux self
         (Some (Qc_of_Z 20)) (Some (Qc_of_Z 10)) (Some (Qc_of_Z 15)).
Proof.
  intros Hself Hroof Hatt Hk Hi. split; [|reflexivity].
  pose proof Hatt as [Hr _].
  unfold Building_calculate_flux, bind, read, as_building. simpl.
  rewrite Hself, Hroof. unfold call_child_calculate_flux, call_calculate_flux.
  rewrite Hr, Hk.
  by rewrite (Roof_calculate_flux_attached h r rc w l i _ Hatt Hi).
Qed.

Lemma Building_calculate_flux_raises_witness :
  fst (Building_calculate_flux Sample.building None None None Sample.store)
  = inl TypeError.
Proof.
  destruct (Building_calculate_flux_raises Sample.store Sample.building _
              Sample.roof _ (Qc_of_Z 5) (Qc_of_Z 4) (Q2Qc (5 # 16)) None None None
              eq_refl eq_refl Sample_roof_attached eq_refl) as [Hrun _].
  - apply (bool_decide_eq_true_1 _). vm_compute. reflexivity.
  - rewrite Hrun. reflexivity.
Defined.

(** In the same store the calls on the side and on the floor do return. *)
Lemma Sample_floor_flux :
  fst (Floor_calculate_flux Sample.floor (Some (Qc_of_Z 5)) Sample.store)
  = inr (Q2Qc (1000 # 3)).
Proof.
  rewrite (Floor_calculate_flux_attached Sample.store Sample.floor _
             (Qc_of_Z 5) (Qc_of_Z 4) (Q2Qc (3 # 10)) (Qc_of_Z 5) Sample_floor_attached).
  - apply (bool_decide_eq_true_1 _). vm_compute. reflexivity.
  - apply (bool_decide_eq_true_1 _). vm_compute. reflexivity.
  - discriminate.
Qed.

(** * Adding and removing children *)

(** ** [list.remove] *)

Lemma list_remove_missing (x : loc) (l : list loc) :
  x ∉ l -> list_remove x l = None.
Proof.
  induction l as [|y l IH]; intros Hx; simpl; [done|].
  apply not_elem_of_cons in Hx as [Hne Hx].
  destruct (decide (x = y)); [done|]. by rewrite IH.
Qed.

Lemma list_remove_appended (x : loc) (l : list loc) :
  x ∉ l -> list_remove x (l ++ [x]) = Some l.
Proof.
  induction l as [|y l IH]; intros Hx; simpl.
  - by destruct (decide (x = x)).
  - apply not_elem_of_cons in Hx as [Hne Hx].
    destruct (decide (x = y)); [done|]. by rewrite IH.
Qed.

(** ** What each call does to the store *)

Section Calls.
Variable h : heap.

Lemma MaterialCollection_add_run (c m : loc) (cc : Collection) (mm : Material) :
  h !! c = Some (OCollection cc) ->
  h !! m = Some (OMaterial mm) ->
  MaterialCollection_add c m h
  = (inr tt, <[m := OMaterial (Material_set_parent (Some c) mm)]>
               (<[c := OCollection (Collection_set_materials (c_materials cc ++ [m]) cc)]> h)).
Proof.
  intros Hc Hm. assert (c <> m) by distinct_objects.
  unfold MaterialCollection_add. run_method.
  rewrite Hc. simpl. by rewrite lookup_insert_ne, Hm.
Qed.

Lemma MaterialCollection_remove_run
    (c m : loc) (cc : Collection) (mm : Material) (ms : list loc) :
  h !! c = Some (OCollection cc) ->
  h !! m = Some (OMaterial mm) ->
  list_remove m (c_materials cc) = Some ms ->
  MaterialCollection_remove c m h
  = (inr tt, <[m := OMaterial (Material_set_parent None mm)]>
               (<[c := OCollection (Collection_set_materials ms cc)]> h)).
Proof.
  intros Hc Hm Hms. assert (c <> m) by distinct_objects.
  unfold MaterialCollection_remove. run_method.
  rewrite Hc. simpl. rewrite Hms. run_method.
  by rewrite lookup_insert_ne, Hm.
Qed.

Lemma MaterialCollection_remove_missing (c m : loc) (cc : Collection) :
  h !! c = Some (OCollection cc) ->
  m ∉ c_materials cc ->
  MaterialCollection_remove c m h = (inl ValueError, h).
Proof.
  intros Hc Hm. unfold MaterialCollection_remove. run_method.
  rewrite Hc. simpl. by rewrite list_remove_missing.
Qed.

Lemma Side_add_wall_run (s w : loc) (sd : Side) (wc : Collection) :
  h !! s = Some (OSide sd) ->
  h !! w = Some (OCollection wc) -> c_kind wc = KWall ->
  Side_add s w h
  = (inr tt, <[w := OCollection (Collection_set_parent (Some s) wc)]>
               (<[s := OSide (Side_set_wall (Some w) sd)]> h)).
Proof.
  intros Hs Hw Hk. assert (s <> w) by distinct_objects.
  unfold Side_add, isinstance. rewrite Hw, Hk. run_method.
  rewrite Hs. simpl. by rewrite lookup_insert_ne, Hw.
Qed.

Lemma Side_remove_wall_run (s w : loc) (sd : Side) (wc : Collection) :
  h !! s = Some (OSide sd) ->
  h !! w = Some (OCollection wc) -> c_kind wc = KWall ->
  Side_remove s w h
  = (inr tt, <[w := OCollection (Collection_set_parent None wc)]>
               (<[s := OSide (Side_set_wall None sd)]> h)).
Proof.
  intros Hs Hw Hk. assert (s <> w) by distinct_objects.
  unfold Side_remove, isinstance. rewrite Hw, Hk. run_method.
  rewrite Hs. simpl. by rewrite lookup_insert_ne, Hw.
Qed.

Lemma Side_add_opening_run (s o : loc) (sd : Side) (oc : Collection) :
  h !! s = Some (OSide sd) ->
  h !! o = Some (OCollection oc) -> c_kind oc = KOpening ->
  Side_add s o h
  = (inr tt, <[o := OCollection (Collection_set_parent (Some s) oc)]>
               (<[s := OSide (Side_set_openings (s_openings sd ++ [o]) sd)]> h)).
Proof.
  intros Hs Ho Hk. assert (s <> o) by distinct_objects.
  unfold Side_add, isinstance. rewrite Ho, Hk. run_method.
  rewrite Hs. simpl. by rewrite lookup_insert_ne, Ho.
Qed.

Lemma Side_remove_opening_run
    (s o : loc) (sd : Side) (oc : Collection) (os : list loc) :
  h !! s = Some (OSide sd) ->
  h !! o = Some (OCollection oc) -> c_kind oc = KOpening ->
  list_remove o (s_openings sd) = Some os ->
  Side_remove s o h
  = (inr tt, <[o := OCollection (Collection_set_parent None oc)]>
               (<[s := OSide (Side_set_openings os sd)]> h)).
Proof.
  intros Hs Ho Hk Hos. assert (s <> o) by distinct_objects.
  unfold Side_remove, isinstance. rewrite Ho, Hk. run_method.
  rewrite Hs. simpl. rewrite Hos. run_method.
  by rewrite lookup_insert_ne, Ho.
Qed.

Lemma Side_remove_opening_missing (s o : loc) (sd : Side) (oc : Collection) :
  h !! s = Some (OSide sd) ->
  h !! o = Some (OCollection oc) -> c_kind oc = KOpening ->
  o ∉ s_openings sd ->
  Side_remove s o h = (inl ValueError, h).
Proof.
  intros Hs Ho Hk Hos.
  unfold Side_remove, isinstance. rewrite Ho, Hk. run_method.
  rewrite Hs. simpl. by rewrite list_remove_missing.
Qed.
End Calls.

Section BuildingCalls.
Variables (h : heap) (b : loc) (bd : Building).
Hypothesis Hb : h !! b = Some (OBuilding bd).

Lemma Building_add_roof_run (r : loc) (rc : Collection) :
  h !! r = Some (OCollection rc) -> c_kind rc = KRoof ->
  Building_add b r h
  = (inr tt, <[r := OCollection (Collection_set_parent (Some b) rc)]>
               (<[b := OBuilding (Building_set_roof (Some r) bd)]> h)).
Proof.
  intros Hr Hk. assert (b <> r) by distinct_objects.
  unfold Building_add, isinstance. rewrite Hr, Hk. run_method.
  rewrite Hb. simpl. by rewrite lookup_insert_ne, Hr.
Qed.

Lemma Building_remove_roof_run (r : loc) (rc : Collection) :
  h !! r = Some (OCollection rc) -> c_kind rc = KRoof ->
  Building_remove b r h
  = (inr tt, <[r := OCollection (Collection_set_parent None rc)]>
               (<[b := OBuilding (Building_set_roof None bd)]> h)).
Proof.
  intros Hr Hk. assert (b <> r) by distinct_objects.
  unfold Building_remove, isinstance. rewrite Hr, Hk. run_method.
  rewrite Hb. simpl. by rewrite lookup_insert_ne, Hr.
Qed.

Lemma Building_add_side_run (s : loc) (sd : Side) :
  h !! s = Some (OSide sd) ->
  Building_add b s h
  = (inr tt, <[s := OSide (Side_set_parent (Some b) sd)]>
               (<[b := OBuilding (Building_set_side (Some s) bd)]> h)).
Proof.
  intros Hs. assert (b <> s) by distinct_objects.
  unfold Building_add, isinstance, isinstance_Side. rewrite Hs. run_method.
  rewrite Hb. simpl. by rewrite lookup_insert_ne, Hs.
Qed.

Lemma Building_remove_side_run (s : loc) (sd : Side) :
  h !! s = Some (OSide sd) ->
  Building_remove b s h
  = (inr tt, <[s := OSide (Side_set_parent None sd)]>
               (<[b := OBuilding (Building_set_side None bd)]> h)).
Proof.
  intros Hs. assert (b <> s) by distinct_objects.
  unfold Building_remove, isinstance, isinstance_Side. rewrite Hs. run_method.
  rewrite Hb. simpl. by rewrite lookup_insert_ne, Hs.
Qed.

Lemma Building_add_floor_run (f : loc) (fc : Collection) :
  h !! f = Some (OCollection fc) -> c_kind fc = KFloor ->
  Building_add b f h
  = (inr tt, <[f := OCollection (Collection_set_parent (Some b) fc)]>
               (<[b := OBuilding (Building_set_floor (Some f) bd)]> h)).
Proof.
  intros Hf Hk. assert (b <> f) by distinct_objects.
  unfold Building_add, isinstance, isinstance_Side. rewrite Hf, Hk. run_method.
  rewrite Hb. simpl. by rewrite lookup_insert_ne, Hf.
Qed.

Lemma Building_remove_floor_run (f : loc) (fc : Collection) :
  h !! f = Some (OCollection fc) -> c_kind fc = KFloor ->
  Building_remove b f h
  = (inr tt, <[f := OCollection (Collection_set_parent None fc)]>
               (<[b := OBuilding (Building_set_floor None bd)]> h)).
Proof.
  intros Hf Hk. assert (b <> f) by distinct_objects.
  unfold Building_remove, isinstance, isinstance_Side. rewrite Hf, Hk. run_method.
  rewrite Hb. simpl. by rewrite lookup_insert_ne, Hf.
Qed.
End BuildingCalls.

(** ** Add then remove *)

Lemma MaterialCollection_add_remove
    (h : heap) (c m : loc) (cc : Collection) (mm : Material) :
  h !! c = Some (OCollection cc) ->
  h !! m = Some (OMaterial mm) ->
  m ∉ c_materials cc ->
  exists h1 h2,
    MaterialCollection_add c m h = (inr tt, h1)
    /\ parent_is h1 m (Some c) /\ m ∈ materials_of h1 c
    /\ MaterialCollection_remove c m h1 = (inr tt, h2)
    /\ parent_is h2 m None /\ m ∉ materials_of h2 c.
Proof.
  intros Hc Hm Hfresh. assert (c <> m) by distinct_objects.
  eexists _, _. split; [by apply MaterialCollection_add_run|].
  split; [by observe|]. split; [observe; set_solver|].
  split.
  - eapply MaterialCollection_remove_run; lookups; try done.
    simpl. by apply list_remove_appended.
  - split; by observe.
Qed.

Lemma Side_wall_add_remove (h : heap) (s w : loc) (sd : Side) (wc : Collection) :
  h !! s = Some (OSide sd) ->
  h !! w = Some (OCollection wc) -> c_kind wc = KWall ->
  exists h1 h2,
    Side_add s w h = (inr tt, h1)
    /\ parent_is h1 w (Some s) /\ wall_of h1 s = Some w
    /\ Side_remove s w h1 = (inr tt, h2)
    /\ parent_is h2 w None /\ wall_of h2 s = None.
Proof.
  intros Hs Hw Hk. assert (s <> w) by distinct_objects.
  eexists _, _. split; [by apply Side_add_wall_run|].
  split; [by observe|]. split; [by observe|].
  split; [eapply Side_remove_wall_run; lookups; done|].
  split; by observe.
Qed.

Lemma Side_opening_add_remove (h : heap) (s o : loc) (sd : Side) (oc : Collection) :
  h !! s = Some (OSide sd) ->
  h !! o = Some (OCollection oc) -> c_kind oc = KOpening ->
  o ∉ s_openings sd ->
  exists h1 h2,
    Side_add s o h = (inr tt, h1)
    /\ parent_is h1 o (Some s) /\ o ∈ openings_of h1 s
    /\ Side_remove s o h1 = (inr tt, h2)
    /\ parent_is h2 o None /\ o ∉ openings_of h2 s.
Proof.
  intros Hs Ho Hk Hfresh. assert (s <> o) by distinct_objects.
  eexists _, _. split; [by apply Side_add_opening_run|].
  split; [by observe|]. split; [observe; set_solver|].
  split.
  - eapply Side_remove_opening_run; lookups; try done.
    simpl. by apply list_remove_appended.
  - split; by observe.
Qed.

Lemma Building_roof_add_remove
    (h : heap) (b r : loc) (bd : Building) (rc : Collection) :
  h !! b = Some (OBuilding bd) ->
  h !! r = Some (OCollection rc) -> c_kind rc = KRoof ->
  exists h1 h2,
    Building_add b r h = (inr tt, h1)
    /\ parent_is h1 r (Some b) /\ roof_of h1 b = Some r
    /\ Building_remove b r h1 = (inr tt, h2)
    /\ parent_is h2 r None /\ roof_of h2 b = None.
Proof.
  intros Hb Hr Hk. assert (b <> r) by distinct_objects.
  eexists _, _. split; [by eapply Building_add_roof_run|].
  split; [by observe|]. split; [by observe|].
  split; [eapply Building_remove_roof_run; lookups; done|].
  split; by observe.
Qed.

Lemma Building_side_add_remove (h : heap) (b s : loc) (bd : Building) (sd : Side) :
  h !! b = Some (OBuilding bd) ->
  h !! s = Some (OSide sd) ->
  exists h1 h2,
    Building_add b s h = (inr tt, h1)
    /\ parent_is h1 s (Some b) /\ side_of h1 b = Some s
    /\ Building_remove b s h1 = (inr tt, h2)
    /\ parent_is h2 s None /\ side_of h2 b = None.
Proof.
  intros Hb Hs. assert (b <> s) by distinct_objects.
  eexists _, _. split; [by eapply Building_add_side_run|].
  split; [by observe|]. split; [by observe|].
  split; [eapply Building_remove_side_run; lookups; done|].
  split; by observe.
Qed.

Lemma Building_floor_add_remove
    (h : heap) (b f : loc) (bd : Building) (fc : Collection) :
  h !! b = Some (OBuilding bd) ->
  h !! f = Some (OCollection fc) -> c_kind fc = KFloor ->
  exists h1 h2,
    Building_add b f h = (inr tt, h1)
    /\ parent_is h1 f (Some b) /\ floor_of h1 b = Some f
    /\ Building_remove b f h1 = (inr tt, h2)
    /\ parent_is h2 f None /\ floor_of h2 b = None.
Proof.
  intros Hb Hf Hk. assert (b <> f) by distinct_objects.
  eexists _, _. split; [by eapply Building_add_floor_run|].
  split; [by observe|]. split; [by observe|].
  split; [eapply Building_remove_floor_run; lookups; done|].
  split; by observe.
Qed.

(** C8.  The add/remove pairing of membership and back-reference, for a
    collection and a material it does not hold yet, for a side and a wall,
    for a side and an opening it does not hold yet, and for a building and a
    roof, a side, a floor. *)
Theorem add_remove_symmetry (h : heap) :
  (forall c m cc mm,
      h !! c = Some (OCollection cc) -> h !! m = Some (OMaterial mm) ->
      m ∉ c_materials cc ->
      add_remove_paired MaterialCollection_add MaterialCollection_remove
        (fun h c m => m ∈ materials_of h c) h c m)
  /\ (forall s w sd wc,
      h !! s = Some (OSide sd) -> h !! w = Some (OCollection wc) -> c_kind wc = KWall ->
      add_remove_paired Side_add Side_remove
        (fun h s w => wall_of h s = Some w) h s w)
  /\ (forall s o sd oc,
      h !! s = Some (OSide sd) -> h !! o = Some (OCollection oc) -> c_kind oc = KOpening ->
      o ∉ s_openings sd ->
      add_remove_paired Side_add Side_remove
        (fun h s o => o ∈ openings_of h s) h s o)
  /\ (forall b r bd rc,
      h !! b = Some (OBuilding bd) -> h !! r = Some (OCollection rc) -> c_kind rc = KRoof ->
      add_remove_paired Building_add Building_remove
        (fun h b r => roof_of h b = Some r) h b r)
  /\ (forall b s bd sd,
      h !! b = Some (OBuilding bd) -> h !! s = Some (OSide sd) ->
      add_remove_paired Building_add Building_remove
        (fun h b s => side_of h b = Some s) h b s)
  /\ (forall b f bd fc,
      h !! b = Some (OBuilding bd) -> h !! f = Some (OCollection fc) -> c_kind fc = KFloor ->
      add_remove_paired Building_add Building_remove
        (fun h b f => floor_of h b = Some f) h b f).
Proof.
  unfold add_remove_paired. repeat split.
  - intros c m cc mm Hc Hm Hfresh.
    destruct (MaterialCollection_add_remove h c m cc mm Hc Hm Hfresh)
      as (h1 & h2 & ?). by exists h1, h2.
  - intros s w sd wc Hs Hw Hk.
    destruct (Side_wall_add_remove h s w sd wc Hs Hw Hk)
      as (h1 & h2 & ? & ? & ? & ? & ? & Hnone).
    exists h1, h2. rewrite Hnone. by repeat split.
  - intros s o sd oc Hs Ho Hk Hfresh.
    destruct (Side_opening_add_remove h s o sd oc Hs Ho Hk Hfresh)
      as (h1 & h2 & ?). by exists h1, h2.
  - intros b r bd rc Hb Hr Hk.
    destruct (Building_roof_add_remove h b r bd rc Hb Hr Hk)
      as (h1 & h2 & ? & ? & ? & ? & ? & Hnone).
    exists h1, h2. rewrite Hnone. by repeat split.
  - intros b s bd sd Hb Hs.
    destruct (Building_side_add_remove h b s bd sd Hb Hs)
      as (h1 & h2 & ? & ? & ? & ? & ? & Hnone).
    exists h1, h2. rewrite Hnone. by repeat split.
  - intros b f bd fc Hb Hf Hk.
    destruct (Building_floor_add_remove h b f bd fc Hb Hf Hk)
      as (h1 & h2 & ? & ? & ? & ? & ? & Hnone).
    exists h1, h2. rewrite Hnone. by repeat split.
Qed.

Lemma add_remove_symmetry_witness :
  add_remove_paired MaterialCollection_add MaterialCollection_remove
    (fun h c m => m ∈ materials_of h c) Sample.store Sample.wall Sample.spare_material
  /\ add_remove_paired Side_add Side_remove
    (fun h s w => wall_of h s = Some w) Sample.store Sample.side Sample.spare_wall
  /\ add_remove_paired Side_add Side_remove
    (fun h s o => o ∈ openings_of h s) Sample.store Sample.side Sample.spare_opening
  /\ add_remove_paired Building_add Building_remove
    (fun h b r => roof_of h b = Some r) Sample.store Sample.building Sample.spare_roof
  /\ add_remove_paired Building_add Building_remove
    (fun h b s => side_of h b = Some s) Sample.store Sample.building Sample.spare_side
  /\ add_remove_paired Building_add Building_remove
    (fun h b f => floor_of h b = Some f) Sample.store Sample.building Sample.spare_floor.
Proof.
  destruct (add_remove_symmetry Sample.store) as (H1 & H2 & H3 & H4 & H5 & H6).
  split; [|split; [|split; [|split; [|split]]]].
  - eapply H1; [reflexivity | reflexivity |].
    apply (bool_decide_unpack _). vm_compute. exact I.
  - eapply H2; reflexivity.
  - eapply H3; [reflexivity | reflexivity | reflexivity |].
    apply (bool_decide_unpack _). vm_compute. exact I.
  - eapply H4; reflexivity.
  - eapply H5; reflexivity.
  - eapply H6; reflexivity.
Defined.

(** ** Removing a child that is not held *)

(** C5.  [Side.remove] with any wall, and [Building.remove] with any roof,
    side or floor, empties the slot and clears the back-reference of the
    object it was given, whether or not that object is the one in the slot;
    the object that was in the slot keeps its back-reference to a parent that
    no longer holds it. *)
Theorem remove_empties_slot_unconditionally (h : heap) :
  (forall s w sd wc,
      h !! s = Some (OSide sd) -> h !! w = Some (OCollection wc) -> c_kind wc = KWall ->
      Side_remove s w h
      = (inr tt, <[w := OCollection (Collection_set_parent None wc)]>
                   (<[s := OSide (Side_set_wall None sd)]> h)))
  /\ (forall b r bd rc,
      h !! b = Some (OBuilding bd) -> h !! r = Some (OCollection rc) -> c_kind rc = KRoof ->
      Building_remove b r h
      = (inr tt, <[r := OCollection (Collection_set_parent None rc)]>
                   (<[b := OBuilding (Building_set_roof None bd)]> h)))
  /\ (forall b s bd sd,
      h !! b = Some (OBuilding bd) -> h !! s = Some (OSide sd) ->
      Building_remove b s h
      = (inr tt, <[s := OSide (Side_set_parent None sd)]>
                   (<[b := OBuilding (Building_set_side None bd)]> h)))
  /\ (forall b f bd fc,
      h !! b = Some (OBuilding bd) -> h !! f = Some (OCollection fc) -> c_kind fc = KFloor ->
      Building_remove b f h
      = (inr tt, <[f := OCollection (Collection_set_parent None fc)]>
                   (<[b := OBuilding (Building_set_floor None bd)]> h)))
  /\ (forall s w1 w2 sd c1 c2,
      h !! s = Some (OSide sd) -> s_wall sd = Some w1 ->
      h !! w1 = Some (OCollection c1) -> c_parent c1 = Some s ->
      h !! w2 = Some (OCollection c2) -> c_kind c2 = KWall -> w1 <> w2 ->
      exists h', Side_remove s w2 h = (inr tt, h')
                 /\ wall_of h' s = None /\ parent_is h' w1 (Some s))
  /\ (forall b r1 r2 bd c1 c2,
      h !! b = Some (OBuilding bd) -> b_roof bd = Some r1 ->
      h !! r1 = Some (OCollection c1) -> c_parent c1 = Some b ->
      h !! r2 = Some (OCollection c2) -> c_kind c2 = KRoof -> r1 <> r2 ->
      exists h', Building_remove b r2 h = (inr tt, h')
                 /\ roof_of h' b = None /\ parent_is h' r1 (Some b))
  /\ (forall b s1 s2 bd sd1 sd2,
      h !! b = Some (OBuilding bd) -> b_side bd = Some s1 ->
      h !! s1 = Some (OSide sd1) -> s_parent sd1 = Some b ->
      h !! s2 = Some (OSide sd2) -> s1 <> s2 ->
      exists h', Building_remove b s2 h = (inr tt, h')
                 /\ side_of h' b = None /\ parent_is h' s1 (Some b))
  /\ (forall b f1 f2 bd c1 c2,
      h !! b = Some (OBuilding bd) -> b_floor bd = Some f1 ->
      h !! f1 = Some (OCollection c1) -> c_parent c1 = Some b ->
      h !! f2 = Some (OCollection c2) -> c_kind c2 = KFloor -> f1 <> f2 ->
      exists h', Building_remove b f2 h = (inr tt, h')
                 /\ floor_of h' b = None /\ parent_is h' f1 (Some b)).
Proof.
  split; [intros; by apply Side_remove_wall_run|].
  split; [intros; by eapply Building_remove_roof_run|].
  split; [intros; by eapply Building_remove_side_run|].
  split; [intros; by eapply Building_remove_floor_run|].
  split; [|split; [|split]].
  - intros s w1 w2 sd c1 c2 Hs Hslot H1 Hp H2 Hk Hne.
    assert (s <> w1) by distinct_objects. assert (s <> w2) by distinct_objects.
    eexists. split; [by apply Side_remove_wall_run|].
    split; observe; by rewrite ?H1.
  - intros b r1 r2 bd c1 c2 Hb Hslot H1 Hp H2 Hk Hne.
    assert (b <> r1) by distinct_objects. assert (b <> r2) by distinct_objects.
    eexists. split; [by eapply Building_remove_roof_run|].
    split; observe; by rewrite ?H1.
  - intros b s1 s2 bd sd1 sd2 Hb Hslot H1 Hp H2 Hne.
    assert (b <> s1) by distinct_objects. assert (b <> s2) by distinct_objects.
    eexists. split; [by eapply Building_remove_side_run|].
    split; observe; by rewrite ?H1.
  - intros b f1 f2 bd c1 c2 Hb Hslot H1 Hp H2 Hk Hne.
    assert (b <> f1) by distinct_objects. assert (b <> f2) by distinct_objects.
    eexists. split; [by eapply Building_remove_floor_run|].
    split; observe; by rewrite ?H1.
Qed.

(** Removing the spare wall from the sample side empties the slot that held
    the side's own wall, which still names the side as its parent. *)
Lemma remove_empties_slot_unconditionally_witness :
  exists h', Side_remove Sample.side Sample.spare_wall Sample.store = (inr tt, h')
             /\ wall_of h' Sample.side = None
             /\ parent_is h' Sample.wall (Some Sample.side).
Proof.
  destruct (remove_empties_slot_unconditionally Sample.store)
    as (_ & _ & _ & _ & Hside & _).
  eapply (Hside Sample.side Sample.wall Sample.spare_wall); try reflexivity.
  discriminate.
Defined.

(** C4, as the code has it.  Removing a material from a collection that does
    not hold it, or an opening from a side that does not hold it, raises
    [ValueError] and leaves the store as it was.  Removing a wall that a side
    does not hold, or a roof, side or floor that a building does not hold,
    raises nothing: the call succeeds. *)
Theorem remove_of_child_not_held (h : heap) :
  (forall c m cc,
      h !! c = Some (OCollection cc) -> m ∉ c_materials cc ->
      MaterialCollection_remove c m h = (inl ValueError, h))
  /\ (forall s o sd oc,
      h !! s = Some (OSide sd) -> h !! o = Some (OCollection oc) -> c_kind oc = KOpening ->
      o ∉ s_openings sd ->
      Side_remove s o h = (inl ValueError, h))
  /\ (forall s w sd wc,
      h !! s = Some (OSide sd) -> h !! w = Some (OCollection wc) -> c_kind wc = KWall ->
      s_wall sd <> Some w ->
      exists h', Side_remove s w h = (inr tt, h'))
  /\ (forall b r bd rc,
      h !! b = Some (OBuilding bd) -> h !! r = Some (OCollection rc) -> c_kind rc = KRoof ->
      b_roof bd <> Some r ->
      exists h', Building_remove b r h = (inr tt, h'))
  /\ (forall b s bd sd,
      h !! b = Some (OBuilding bd) -> h !! s = Some (OSide sd) ->
      b_side bd <> Some s ->
      exists h', Building_remove b s h = (inr tt, h'))
  /\ (forall b f bd fc,
      h !! b = Some (OBuilding bd) -> h !! f = Some (OCollection fc) -> c_kind fc = KFloor ->
      b_floor bd <> Some f ->
      exists h', Building_remove b f h = (inr tt, h')).
Proof.
  split; [intros; by eapply MaterialCollection_remove_missing|].
  split; [intros; by eapply Side_remove_opening_missing|].
  split; [intros; eexists; by apply Side_remove_wall_run|].
  split; [intros; eexists; by eapply Building_remove_roof_run|].
  split; [intros; eexists; by eapply Building_remove_side_run|].
  intros; eexists; by eapply Building_remove_floor_run.
Qed.

Lemma remove_of_child_not_held_witness :
  MaterialCollection_remove Sample.roof Sample.spare_material Sample.store
    = (inl ValueError, Sample.store)
  /\ Side_remove Sample.side Sample.spare_opening Sample.store
    = (inl ValueError, Sample.store)
  /\ (exists h', Building_remove Sample.building Sample.spare_floor Sample.store
                 = (inr tt, h')).
Proof.
  destruct (remove_of_child_not_held Sample.store) as (H1 & H2 & _ & _ & _ & H6).
  split; [|split].
  - eapply H1; [reflexivity|]. apply (bool_decide_unpack _). vm_compute. exact I.
  - eapply H2; [reflexivity | reflexivity | reflexivity |].
    apply (bool_decide_unpack _). vm_compute. exact I.
  - eapply H6; [reflexivity | reflexivity | reflexivity | discriminate].
Defined.

(** The sample side does not hold the spare wall, and the sample building
    does not hold the spare roof; removing them raises no error. *)
Lemma remove_of_wall_not_held_succeeds :
  wall_of Sample.store Sample.side <> Some Sample.spare_wall
  /\ isinstance Sample.store Sample.spare_wall KWall = true
  /\ fst (Side_remove Sample.side Sample.spare_wall Sample.store) = inr tt
  /\ ~ (exists h', Side_remove Sample.side Sample.spare_wall Sample.store
                   = (inl ValueError, h'))
  /\ roof_of Sample.store Sample.building <> Some Sample.spare_roof
  /\ isinstance Sample.store Sample.spare_roof KRoof = true
  /\ fst (Building_remove Sample.building Sample.spare_roof Sample.store) = inr tt.
Proof.
  assert (Hs : fst (Side_remove Sample.side Sample.spare_wall Sample.store) = inr tt)
    by reflexivity.
  repeat split; try done.
  intros [h' Hrun]. rewrite Hrun in Hs. discriminate.
Qed.

(** ** Children of other classes *)

(** C9.  Given an object that is neither a wall nor an opening, [Side.add]
    and [Side.remove] return without error and leave the whole store, hence
    the slot and the openings of the side, as they were; so do [Building.add]
    and [Building.remove] given an object that is neither a roof, a side
    nor a floor. *)
Theorem add_remove_ignore_other_classes (h : heap) (self child : loc) :
  (isinstance h child KWall = false -> isinstance h child KOpening = false ->
   Side_add self child h = (inr tt, h) /\ Side_remove self child h = (inr tt, h))
  /\ (isinstance h child KRoof = false -> isinstance_Side h child = false ->
      isinstance h child KFloor = false ->
      Building_add self child h = (inr tt, h)
      /\ Building_remove self child h = (inr tt, h)).
Proof.
  split.
  - intros Hw Ho. unfold Side_add, Side_remove. by rewrite Hw, Ho.
  - intros Hr Hs Hf. unfold Building_add, Building_remove. by rewrite Hr, Hs, Hf.
Qed.

(** A material is no child of a side, and a wall is no child of a building. *)
Lemma add_remove_ignore_other_classes_witness :
  (Side_add Sample.side Sample.spare_material Sample.store = (inr tt, Sample.store)
   /\ Side_remove Sample.side Sample.spare_material Sample.store
      = (inr tt, Sample.store))
  /\ (Building_add Sample.building Sample.spare_wall Sample.store
      = (inr tt, Sample.store)
      /\ Building_remove Sample.building Sample.spare_wall Sample.store
         = (inr tt, Sample.store)).
Proof.
  split.
  - apply (proj1 (add_remove_ignore_other_classes
                    Sample.store Sample.side Sample.spare_material)); reflexivity.
  - apply (proj2 (add_remove_ignore_other_classes
                    Sample.store Sample.building Sample.spare_wall)); reflexivity.
Defined.

(** ** Replacing the wall of a side *)

(** C10.  When the slot of a side holds the wall [w1], adding another wall
    [w2] puts [w2] in the slot and makes the side the parent of [w2]; [w1] is
    left as it was, its back-reference still naming the side; the other
    attributes of the side and every other object are unchanged. *)
Theorem Side_add_replaces_wall
    (h : heap) (s w1 w2 : loc) (sd : Side) (c1 c2 : Collection) :
  h !! s = Some (OSide sd) -> s_wall sd = Some w1 ->
  h !! w1 = Some (OCollection c1) -> c_kind c1 = KWall -> c_parent c1 = Some s ->
  h !! w2 = Some (OCollection c2) -> c_kind c2 = KWall ->
  w1 <> w2 ->
  exists h',
    Side_add s w2 h = (inr tt, h')
    /\ h' !! s = Some (OSide (mkSide (s_parent sd) (s_height sd) (Some w2) (s_openings sd)))
    /\ h' !! w2 = Some (OCollection (mkCollection KWall (Some s) (c_surface c2) (c_materials c2)))
    /\ h' !! w1 = Some (OCollection c1)
    /\ parent_is h' w1 (Some s)
    /\ (forall l, l <> s -> l <> w2 -> h' !! l = h !! l).
Proof.
  intros Hs Hslot H1 Hk1 Hp1 H2 Hk2 Hne.
  assert (s <> w1) by distinct_objects. assert (s <> w2) by distinct_objects.
  eexists. split; [by apply Side_add_wall_run|].
  split; [by lookups|].
  split; [lookups; unfold Collection_set_parent; by rewrite Hk2|].
  split; [by lookups|].
  split; [observe; by rewrite H1|].
  intros l Hls Hlw. by rewrite !lookup_insert_ne.
Qed.

Lemma Side_add_replaces_wall_witness :
  exists h',
    Side_add Sample.side Sample.spare_wall Sample.store = (inr tt, h')
    /\ wall_of h' Sample.side = Some Sample.spare_wall
    /\ parent_is h' Sample.spare_wall (Some Sample.side)
    /\ parent_is h' Sample.wall (Some Sample.side).
Proof.
  destruct (Side_add_replaces_wall Sample.store Sample.side Sample.wall Sample.spare_wall
              _ _ _ eq_refl eq_refl eq_refl eq_refl eq_refl eq_refl eq_refl)
    as (h' & Hrun & Hside & Hnew & _ & Hold & _).
  - discriminate.
  - exists h'. split; [exact Hrun|]. unfold wall_of, parent_is in *.
    rewrite Hside, Hnew. simpl. repeat split. exact Hold.
Defined.


(** * Further properties *)

(** ** Insulance and flux of collections with sound layers *)

Lemma conductive_insulance_layers
    (h : heap) (self : loc) (c : Collection) (layers : list (Qc * Qc)) :
  h !! self = Some (OCollection c) ->
  are_layers h (c_materials c) layers ->
  MaterialCollection_calculate_thermal_conductivity_insulance self h
  = inr (conductive_sum layers).
Proof.
  intros Hself Hl.
  unfold MaterialCollection_calculate_thermal_conductivity_insulance, as_collection.
  rewrite Hself. simpl. rewrite (insulance_loop_layers h _ layers Hl).
  unfold conductive_sum. f_equal. ring.
Qed.

Lemma thermal_insulance_layers
    (h : heap) (self : loc) (c : Collection) (layers : list (Qc * Qc)) :
  h !! self = Some (OCollection c) ->
  are_layers h (c_materials c) layers ->
  call_calculate_thermal_insulance self h
  = inr (conductive_sum layers + convective_terms (c_kind c)).
Proof.
  intros Hself Hl.
  unfold call_calculate_thermal_insulance, Floor_calculate_thermal_insulance,
    MaterialCollection_calculate_thermal_insulance.
  rewrite (conductive_insulance_layers h self c layers Hself Hl).
  unfold as_collection. rewrite Hself.
  cbv beta zeta iota delta [rbind].
  rewrite tenth_decimal, eightieth_fraction.
  destruct (c_kind c); simpl; f_equal; ring.
Qed.

Lemma conductive_sum_nonneg (layers : list (Qc * Qc)) :
  Forall (fun tk => 0 <= tk.1 /\ 0 < tk.2) layers -> 0 <= conductive_sum layers.
Proof.
  unfold conductive_sum.
  induction 1 as [|[t k] layers [Ht Hk] _ IH]; csimpl; [done|].
  apply Qcplus_nonneg_nonneg; [|exact IH].
  apply Qcmult_nonneg_nonneg; [exact Ht|].
  apply Qclt_le_weak, Qcinv_pos, Hk.
Qed.

Lemma convective_terms_bound (k : kind) : Q2Qc (1 # 10) <= convective_terms k.
Proof. by destruct k. Qed.

Lemma are_layers_positive (h : heap) (ms : list loc) (layers : list (Qc * Qc)) :
  are_layers h ms layers -> Forall (fun tk => 0 <= tk.1) layers ->
  Forall (fun tk => 0 <= tk.1 /\ 0 < tk.2) layers.
Proof.
  induction 1 as [|m tk ms layers [_ Hk] _ IH]; intros Ht; [constructor|].
  apply Forall_cons in Ht as [Ht Hts]. constructor; [done|]. by apply IH.
Qed.

(** X1.  With materials of non-negative thickness and positive conductivity
    the thermal insulance of a collection is the conductive sum plus the
    convective terms of its class, and it is at least 1/10: the division in
    [calculate_flux_surface] cannot be by zero, and the method returns
    [dT / insulance]. *)
Theorem thermal_insulance_at_least_tenth
    (h : heap) (self : loc) (c : Collection) (layers : list (Qc * Qc)) (dT : Qc) :
  h !! self = Some (OCollection c) ->
  are_layers h (c_materials c) layers ->
  Forall (fun tk => 0 <= tk.1) layers ->
  let i := conductive_sum layers + convective_terms (c_kind c) in
  call_calculate_thermal_insulance self h = inr i
  /\ Q2Qc (1 # 10) <= i
  /\ MaterialCollection_calculate_flux_surface self (Some (VNum dT)) h = inr (dT / i).
Proof.
  intros Hself Hl Ht i.
  assert (Hi : call_calculate_thermal_insulance self h = inr i)
    by exact (thermal_insulance_layers h self c layers Hself Hl).
  assert (Hb : Q2Qc (1 # 10) <= i).
  { unfold i. rewrite <- (Qcplus_0_l (Q2Qc (1 # 10))).
    apply Qcplus_le_compat; [|apply convective_terms_bound].
    apply conductive_sum_nonneg. by eapply are_layers_positive. }
  split; [exact Hi|]. split; [exact Hb|].
  unfold MaterialCollection_calculate_flux_surface. simpl. rewrite Hi. simpl.
  destruct (decide (i = 0)) as [Hz|]; [|reflexivity].
  rewrite Hz in Hb. by apply Qcle_not_lt in Hb.
Qed.

Lemma Sample_wall_layers :
  are_layers Sample.store [Sample.wall_material] [(Q2Qc (1 # 10), Q2Qc (1 # 2))].
Proof. repeat constructor. by exists (Some Sample.wall). Qed.

Lemma thermal_insulance_at_least_tenth_witness :
  Q2Qc (1 # 10)
  <= conductive_sum [(Q2Qc (1 # 10), Q2Qc (1 # 2))] + convective_terms KWall.
Proof.
  refine (proj1 (proj2 (thermal_insulance_at_least_tenth Sample.store Sample.wall _
                          [(Q2Qc (1 # 10), Q2Qc (1 # 2))] 0 eq_refl Sample_wall_layers _))).
  repeat constructor. done.
Defined.

(** X2.  On a floor attached to a building of width [w] and length [l],
    whose materials have non-negative thickness and positive conductivity,
    [calculate_flux(dT)] sets the surface to [w * l] and returns
    [dT / (conductive sum + 1/10) * (w * l)]; without argument it returns
    what it returns for 0. *)
Theorem Floor_calculate_flux_returns
    (h : heap) (self : loc) (c : Collection) (w l dT : Qc) (layers : list (Qc * Qc)) :
  attached_to_building h self c w l ->
  c_kind c = KFloor ->
  are_layers h (c_materials c) layers ->
  Forall (fun tk => 0 <= tk.1) layers ->
  Floor_calculate_flux self (Some dT) h
  = (inr (dT / (conductive_sum layers + Q2Qc (1 # 10)) * (w * l)),
     <[self := OCollection (Collection_set_surface (Some (w * l)) c)]> h)
  /\ Floor_calculate_flux self None h = Floor_calculate_flux self (Some 0) h.
Proof.
  intros Hatt Hk Hl Ht. split; [|reflexivity].
  pose proof Hatt as [Hself _].
  pose proof (thermal_insulance_layers h self c layers Hself Hl) as Hi.
  rewrite Hk in Hi. simpl in Hi.
  apply (Floor_calculate_flux_attached h self c w l _ dT Hatt Hi).
  intros Hz.
  pose proof (conductive_sum_nonneg layers (are_layers_positive h _ layers Hl Ht)) as Hs.
  assert (Hpos : 0 < conductive_sum layers + Q2Qc (1 # 10))
    by (apply Qcplus_nonneg_pos; done).
  rewrite Hz in Hpos. by apply Qclt_not_eq in Hpos.
Qed.

Lemma Sample_floor_layers :
  are_layers Sample.store [Sample.floor_material] [(Q2Qc (1 # 10), Q2Qc (1 # 2))].
Proof. repeat constructor. by exists (Some Sample.floor). Qed.

Lemma Floor_calculate_flux_returns_witness :
  fst (Floor_calculate_flux Sample.floor (Some (Qc_of_Z 5)) Sample.store)
  = inr (Qc_of_Z 5 / (conductive_sum [(Q2Qc (1 # 10), Q2Qc (1 # 2))] + Q2Qc (1 # 10))
         * (Qc_of_Z 5 * Qc_of_Z 4)).
Proof.
  rewrite (proj1 (Floor_calculate_flux_returns Sample.store Sample.floor _
                    (Qc_of_Z 5) (Qc_of_Z 4) (Qc_of_Z 5) [(Q2Qc (1 # 10), Q2Qc (1 # 2))]
                    Sample_floor_attached eq_refl Sample_floor_layers
                    ltac:(repeat constructor; done))).
  reflexivity.
Defined.

(** ** Repeating a flux computation *)

Lemma getattr_width_set_surface
    (h : heap) (self : loc) (c : Collection) (v : option Qc) (w : option Qc) :
  h !! self = Some (OCollection c) ->
  getattr_width (c_parent c) h = inr w ->
  getattr_width (c_parent c) (<[self := OCollection (Collection_set_surface v c)]> h)
  = inr w.
Proof.
  intros Hself. unfold getattr_width. destruct (c_parent c) as [b|]; [|done].
  destruct (decide (self = b)) as [<-|Hne].
  - rewrite Hself. discriminate.
  - by rewrite lookup_insert_ne.
Qed.

Lemma getattr_length_set_surface
    (h : heap) (self : loc) (c : Collection) (v : option Qc) (l : option Qc) :
  h !! self = Some (OCollection c) ->
  getattr_length (c_parent c) h = inr l ->
  getattr_length (c_parent c) (<[self := OCollection (Collection_set_surface v c)]> h)
  = inr l.
Proof.
  intros Hself. unfold getattr_length. destruct (c_parent c) as [b|]; [|done].
  destruct (decide (self = b)) as [<-|Hne].
  - rewrite Hself. discriminate.
  - by rewrite lookup_insert_ne.
Qed.

Lemma derive_surface_then_repeat (self : loc) (finish : heap -> result Qc) (h : heap) :
  derive_surface_then self finish (snd (derive_surface_then self finish h))
  = derive_surface_then self finish h.
Proof.
  unfold derive_surface_then, bind, read, setattr_surface, as_collection.
  destruct (h !! self) as [[m|c|s|b]|] eqn:Hself; simpl; rewrite ?Hself; try done.
  destruct (getattr_width (c_parent c) h) as [e|w] eqn:Hw; simpl;
    [by rewrite Hself, Hw|].
  destruct (getattr_length (c_parent c) h) as [e|l] eqn:Hl; simpl;
    [by rewrite Hself, Hw, Hl|].
  destruct (py_mul w l) as [e|s] eqn:Hs; simpl; [by rewrite Hself, Hw, Hl, Hs|].
  destruct (finish _) as [e|r] eqn:Hf; simpl;
    rewrite lookup_insert_eq; simpl;
    rewrite (getattr_width_set_surface h self c _ w Hself Hw),
      (getattr_length_set_surface h self c _ l Hself Hl), Hs,
      ?lookup_insert_eq, insert_insert_eq; simpl;
    unfold Collection_set_surface in *; simpl; by rewrite Hf.
Qed.

(** X3.  Calling [calculate_flux] again on a roof or on a floor, with the
    same argument, gives the same outcome (value or exception) and leaves the
    store as the first call left it, whatever the store: the surface is
    derived anew each time, not accumulated. *)
Theorem calculate_flux_repeatable
    (h : heap) (self : loc) (dT : option Qc) (args : list Qc) :
  Floor_calculate_flux self dT (snd (Floor_calculate_flux self dT h))
  = Floor_calculate_flux self dT h
  /\ Roof_calculate_flux self args (snd (Roof_calculate_flux self args h))
     = Roof_calculate_flux self args h.
Proof.
  split.
  - exact (derive_surface_then_repeat self
             (MaterialCollection_calculate_flux self (Some (VNum (default 0 dT)))) h).
  - exact (derive_surface_then_repeat self
             (MaterialCollection_calculate_flux self (Some (VTuple args))) h).
Qed.

(** ** Errors of the insulance and flux methods *)

Lemma insulance_loop_app_layers
    (h : heap) (good : list loc) (layers : list (Qc * Qc)) (rest : list loc) (acc : Qc) :
  are_layers h good layers ->
  insulance_loop h (good ++ rest) acc
  = insulance_loop h rest (acc + conductive_sum layers).
Proof.
  intros Hl. revert acc. unfold conductive_sum.
  induction Hl as [|m [t k] good layers [Hm Hk] _ IH]; intros acc; csimpl.
  - f_equal. ring.
  - rewrite (Material_insulance_layer h m t k Hm (Qclt_0_neq k Hk)). csimpl.
    rewrite IH. f_equal. ring.
Qed.

Lemma collection_error_of_material
    (h : heap) (self : loc) (c : Collection) (good : list loc)
    (layers : list (Qc * Qc)) (m : loc) (mm : Material) (rest : list loc) (e : exn) :
  h !! self = Some (OCollection c) ->
  c_materials c = good ++ m :: rest ->
  are_layers h good layers ->
  h !! m = Some (OMaterial mm) ->
  py_truediv (m_thickness mm) (m_thermal_conductivity mm) = inl e ->
  MaterialCollection_calculate_thermal_conductivity_insulance self h = inl e
  /\ call_calculate_thermal_insulance self h = inl e
  /\ forall tv, MaterialCollection_calculate_flux self tv h = inl e.
Proof.
  intros Hself Hms Hl Hm He.
  assert (Hc : MaterialCollection_calculate_thermal_conductivity_insulance self h = inl e).
  { unfold MaterialCollection_calculate_thermal_conductivity_insulance, as_collection.
    rewrite Hself. simpl. rewrite Hms, (insulance_loop_app_layers h good layers _ _ Hl).
    simpl. unfold call_calculate_thermal_conductivity_insulance,
      Material_calculate_thermal_conductivity_insulance, as_material.
    rewrite Hm. simpl. by rewrite He. }
  assert (Ht : call_calculate_thermal_insulance self h = inl e).
  { unfold call_calculate_thermal_insulance, Floor_calculate_thermal_insulance,
      MaterialCollection_calculate_thermal_insulance, as_collection.
    rewrite Hself, Hc. simpl. by destruct (c_kind c). }
  split; [exact Hc|]. split; [exact Ht|]. intros tv.
  unfold MaterialCollection_calculate_flux, MaterialCollection_calculate_flux_surface.
  simpl. by rewrite Ht.
Qed.

(** X4.  When the materials of a collection before [m] are sound layers and
    [m] is a material of conductivity 0 whose thickness is set, the conductive
    insulance, the thermal insulance and the flux of the collection all raise
    [ZeroDivisionError]; when the thickness or the conductivity of [m] was
    never set, they all raise [TypeError]. *)
Theorem collection_raises_on_unusable_material
    (h : heap) (self : loc) (c : Collection) (good : list loc)
    (layers : list (Qc * Qc)) (m : loc) (mm : Material) (rest : list loc) :
  h !! self = Some (OCollection c) ->
  c_materials c = good ++ m :: rest ->
  are_layers h good layers ->
  h !! m = Some (OMaterial mm) ->
  let raises e :=
    MaterialCollection_calculate_thermal_conductivity_insulance self h = inl e
    /\ call_calculate_thermal_insulance self h = inl e
    /\ forall tv, MaterialCollection_calculate_flux self tv h = inl e in
  (m_thermal_conductivity mm = Some 0 -> is_Some (m_thickness mm) ->
   raises ZeroDivisionError)
  /\ (m_thickness mm = None \/ m_thermal_conductivity mm = None -> raises TypeError).
Proof.
  intros Hself Hms Hl Hm raises. split.
  - intros Hk [t Ht].
    apply (collection_error_of_material h self c good layers m mm rest); try done.
    by rewrite Hk, Ht.
  - intros Hnone.
    apply (collection_error_of_material h self c good layers m mm rest); try done.
    destruct Hnone as [-> | ->]; [done|]. by destruct (m_thickness mm).
Qed.

(** A wall with one sound layer followed by a material of conductivity 0. *)
Lemma collection_raises_on_unusable_material_witness :
  let h := <[Sample.spare_material := Material_init (Some 0) (Some 1)]>
             (<[Sample.wall := OCollection (mkCollection KWall (Some Sample.side) None
                                 [Sample.wall_material; Sample.spare_material])]>
                Sample.store) in
  call_calculate_thermal_insulance Sample.wall h = inl ZeroDivisionError.
Proof.
  intros h.
  refine (proj1 (proj2 (proj1
    (collection_raises_on_unusable_material h Sample.wall _ [Sample.wall_material]
       [(Q2Qc (1 # 10), Q2Qc (1 # 2))] Sample.spare_material _ [] eq_refl eq_refl _ eq_refl)
    eq_refl _))).
  - repeat constructor. by exists (Some Sample.wall).
  - by eexists.
Defined.

(** X5.  A collection whose surface was never set (an opening made without
    surface, a wall no side has measured yet) cannot give a flux: with a
    usable insulance, [calculate_flux] raises [TypeError], while
    [calculate_flux_surface] returns. *)
Theorem calculate_flux_without_surface
    (h : heap) (self : loc) (c : Collection) (i dT : Qc) :
  h !! self = Some (OCollection c) ->
  c_kind c <> KRoof -> c_kind c <> KFloor ->
  c_surface c = None ->
  call_calculate_thermal_insulance self h = inr i ->
  i <> 0 ->
  call_calculate_flux self dT h = (inl TypeError, h)
  /\ MaterialCollection_calculate_flux_surface self (Some (VNum dT)) h = inr (dT / i).
Proof.
  intros Hself Hr Hf Hs Hi Hnz.
  assert (Hfs : MaterialCollection_calculate_flux_surface self (Some (VNum dT)) h
                = inr (dT / i)).
  { unfold MaterialCollection_calculate_flux_surface. simpl. rewrite Hi. simpl.
    by destruct (decide (i = 0)). }
  split; [|exact Hfs].
  assert (Hflux : MaterialCollection_calculate_flux self (Some (VNum dT)) h = inl TypeError).
  { unfold MaterialCollection_calculate_flux. simpl. rewrite Hfs. simpl.
    unfold as_collection. rewrite Hself. simpl. by rewrite Hs. }
  unfold call_calculate_flux, read. rewrite Hself.
  destruct (c_kind c); try done; by rewrite Hflux.
Qed.

Lemma calculate_flux_without_surface_witness :
  call_calculate_flux Sample.wall (Qc_of_Z 10) Sample.store
  = (inl TypeError, Sample.store).
Proof.
  refine (proj1 (calculate_flux_without_surface Sample.store Sample.wall _
                   (Q2Qc (5 # 16)) (Qc_of_Z 10) eq_refl _ _ eq_refl _ _));
    try discriminate.
  apply (bool_decide_eq_true_1 _). vm_compute. reflexivity.
Defined.

(** ** Errors of [Side.calculate_flux] *)

Lemma getattr_surfaces_collections (h : heap) (os : list loc) (ss : list (option Qc)) :
  openings_surfaces h os ss -> getattr_surfaces h os = inr ss.
Proof.
  induction 1 as [|o s os ss (oc & Ho & Hs) _ IH]; simpl; [done|].
  unfold getattr_surface. rewrite Ho, IH. simpl. by rewrite Hs.
Qed.

Lemma py_sum_from_unset (acc : Qc) (ss : list (option Qc)) :
  None ∈ ss -> py_sum_from acc ss = inl TypeError.
Proof.
  revert acc. induction ss as [|s ss IH]; intros acc Hin; [by apply elem_of_nil in Hin|].
  simpl. destruct s as [q|]; [|done]. simpl. apply IH.
  apply elem_of_cons in Hin as [|]; done.
Qed.

(** X6.  [Side.calculate_flux] raises, and leaves the store as it was (the
    surface of the wall is not assigned), when the height was never set
    ([TypeError]), when the side is attached to no building
    ([AttributeError]), when an opening has no surface ([TypeError]), and
    when the side has no wall ([AttributeError]). *)
Theorem Side_calculate_flux_configuration_errors
    (h : heap) (self : loc) (sd : Side) (ss : list (option Qc)) (dT : option Qc) :
  h !! self = Some (OSide sd) ->
  openings_surfaces h (s_openings sd) ss ->
  (s_height sd = None -> Side_calculate_flux self dT h = (inl TypeError, h))
  /\ (is_Some (s_height sd) -> s_parent sd = None ->
      Side_calculate_flux self dT h = (inl AttributeError, h))
  /\ (forall b bd bw bl,
        is_Some (s_height sd) -> s_parent sd = Some b ->
        h !! b = Some (OBuilding bd) -> b_width bd = Some bw -> b_length bd = Some bl ->
        (None ∈ ss -> Side_calculate_flux self dT h = (inl TypeError, h))
        /\ (None ∉ ss -> s_wall sd = None ->
            Side_calculate_flux self dT h = (inl AttributeError, h))).
Proof.
  intros Hself Hos.
  pose proof (getattr_surfaces_collections h _ ss Hos) as Hss.
  split; [|split].
  - intros Hh. unfold Side_calculate_flux, bind, read, as_side.
    rewrite Hself. simpl. by rewrite Hss, Hh.
  - intros [hgt Hh] Hp. unfold Side_calculate_flux, bind, read, as_side.
    rewrite Hself. simpl. by rewrite Hss, Hh, Hp.
  - intros b bd bw bl [hgt Hh] Hp Hb Hbw Hbl. split.
    + intros Hin. unfold Side_calculate_flux, bind, read, as_side, getattr_width,
        getattr_length.
      rewrite Hself. simpl. rewrite Hss, Hh, Hp, Hb, Hbw, Hbl. simpl.
      unfold py_sum. by rewrite py_sum_from_unset.
    + intros Hnin Hwall.
      assert (Hsum : exists t, py_sum ss = inr t).
      { assert (Hall : exists qs, ss = Some <$> qs).
        { clear -Hnin. induction ss as [|[q|] ss IH].
          - by exists [].
          - destruct IH as [qs ->].
            + intros Hin. apply Hnin. by apply list_elem_of_further.
            + by exists (q :: qs).
          - exfalso. apply Hnin. apply list_elem_of_here. }
        destruct Hall as [qs ->]. rewrite py_sum_total. by eexists. }
      destruct Hsum as [t Ht].
      unfold Side_calculate_flux, bind, read, as_side, getattr_width,
        getattr_length, setattr_surface.
      rewrite Hself. simpl. rewrite Hss, Hh, Hp, Hb, Hbw, Hbl. simpl.
      by rewrite Ht, Hwall.
Qed.

(** A side made with a height only: no parent, no wall. *)
Lemma Side_calculate_flux_configuration_errors_witness :
  Side_calculate_flux Sample.spare_side (Some (Qc_of_Z 10)) Sample.store
  = (inl AttributeError, Sample.store).
Proof.
  refine (proj1 (proj2 (Side_calculate_flux_configuration_errors Sample.store
                          Sample.spare_side _ [] (Some (Qc_of_Z 10)) eq_refl _)) _ eq_refl).
  - constructor.
  - by eexists.
Defined.

(** ** Repeating the flux computation of a side *)

Lemma Side_calculate_flux_configured
    (h : heap) (self : loc) (sd : Side) (hgt bw bl : Qc)
    (w : loc) (wc : Collection) (iw dT : Qc) (ops : list (Qc * Qc)) :
  side_configured h self sd hgt bw bl w wc ->
  call_calculate_thermal_insulance w h = inr iw ->
  iw <> 0 ->
  Forall2 (fun o si => is_opening h o si.1 si.2) (s_openings sd) ops ->
  Side_calculate_flux self (Some dT) h
  = (inr (dT / iw * (2 * hgt * (bw + bl) - sum_Qc ops.*1)
          + sum_Qc ((fun si => dT / si.2 * si.1) <$> ops)),
     <[w := OCollection
              (Collection_set_surface (Some (2 * hgt * (bw + bl) - sum_Qc ops.*1)) wc)]> h).
Proof.
  intros (Hself & Hh & Hwall & Hw & Hk & b & bd & Hp & Hb & Hbw & Hbl) Hi Hnz Hops.
  set (surface := 2 * hgt * (bw + bl) - sum_Qc ops.*1).
  set (h' := <[w := OCollection (Collection_set_surface (Some surface) wc)]> h).
  assert (Hops' : Forall2 (fun o si => is_opening h' o si.1 si.2) (s_openings sd) ops).
  { eapply Forall2_impl; [exact Hops|]. intros o [s i] Ho.
    by apply is_opening_set_wall_surface. }
  assert (Hwflux : call_calculate_flux w dT h' = (inr (dT / iw * surface), h')).
  { unfold call_calculate_flux, read, h'. rewrite lookup_insert_eq. simpl. rewrite Hk.
    erewrite MaterialCollection_calculate_flux_number; [reflexivity | | | | exact Hnz].
    - apply lookup_insert_eq.
    - reflexivity.
    - by rewrite (thermal_insulance_set_surface h w wc _ Hw). }
  unfold Side_calculate_flux, bind, read, setattr_surface, as_side,
    getattr_width, getattr_length.
  rewrite Hself. simpl.
  rewrite (getattr_surfaces_openings h _ ops Hops), Hh, Hp, Hb, Hbw, Hbl. simpl.
  rewrite py_sum_total, Hwall, Hw. fold surface. fold h'.
  rewrite Hwflux, (flux_loop_openings h' dT _ ops Hops').
  do 2 f_equal. ring.
Qed.

(** X7.  On a configured side, calling [calculate_flux] again with the same
    argument returns the same flux and leaves the store as the first call
    left it: the surface of the wall is derived anew from the dimensions and
    the openings, whatever it was before. *)
Theorem Side_calculate_flux_repeatable
    (h : heap) (self : loc) (sd : Side) (hgt bw bl : Qc)
    (w : loc) (wc : Collection) (iw dT : Qc) (ops : list (Qc * Qc)) :
  side_configured h self sd hgt bw bl w wc ->
  call_calculate_thermal_insulance w h = inr iw ->
  iw <> 0 ->
  Forall2 (fun o si => is_opening h o si.1 si.2) (s_openings sd) ops ->
  Side_calculate_flux self (Some dT) (snd (Side_calculate_flux self (Some dT) h))
  = Side_calculate_flux self (Some dT) h
  /\ (forall s0,
        Side_calculate_flux self (Some dT)
          (<[w := OCollection (Collection_set_surface s0 wc)]> h)
        = Side_calculate_flux self (Some dT) h).
Proof.
  intros Hconf Hi Hnz Hops.
  assert (Hany : forall s0,
    Side_calculate_flux self (Some dT)
      (<[w := OCollection (Collection_set_surface s0 wc)]> h)
    = Side_calculate_flux self (Some dT) h).
  { intros s0.
    pose proof Hconf as (Hself & Hh & Hwall & Hw & Hk & b & bd & Hp & Hb & Hbw & Hbl).
    assert (self <> w) by distinct_objects. assert (b <> w) by distinct_objects.
    rewrite (Side_calculate_flux_configured h self sd hgt bw bl w wc iw dT ops)
      by done.
    rewrite (Side_calculate_flux_configured
               (<[w := OCollection (Collection_set_surface s0 wc)]> h)
               self sd hgt bw bl w (Collection_set_surface s0 wc) iw dT ops).
    - by rewrite insert_insert_eq.
    - split; [by rewrite lookup_insert_ne|]. split; [done|]. split; [done|].
      split; [by rewrite lookup_insert_eq|]. split; [done|].
      exists b, bd. by rewrite lookup_insert_ne.
    - by rewrite (thermal_insulance_set_surface h w wc _).
    - done.
    - eapply Forall2_impl; [exact Hops|]. intros o [s i] Ho.
      pose proof Hconf as (_ & _ & _ & Hw' & Hk' & _).
      by apply is_opening_set_wall_surface. }
  split; [|exact Hany].
  rewrite (Side_calculate_flux_configured h self sd hgt bw bl w wc iw dT ops) at 1
    by done.
  simpl. apply Hany.
Qed.

Lemma Side_calculate_flux_repeatable_witness :
  Side_calculate_flux Sample.side (Some (Qc_of_Z 10))
    (snd (Side_calculate_flux Sample.side (Some (Qc_of_Z 10)) Sample.store))
  = Side_calculate_flux Sample.side (Some (Qc_of_Z 10)) Sample.store.
Proof.
  refine (proj1 (Side_calculate_flux_repeatable Sample.store Sample.side _
                   (Qc_of_Z 3) (Qc_of_Z 5) (Qc_of_Z 4) Sample.wall _
                   (Q2Qc (5 # 16)) (Qc_of_Z 10) [(Qc_of_Z 2, Q2Qc (5 # 16))]
                   Sample_side_configured _ _ _)).
  - apply (bool_decide_eq_true_1 _). vm_compute. reflexivity.
  - discriminate.
  - repeat constructor. exact Sample_opening.
Defined.

(** ** Children held more than once *)

Lemma list_remove_first (x : loc) (l1 l2 : list loc) :
  x ∉ l1 -> list_remove x (l1 ++ x :: l2) = Some (l1 ++ l2).
Proof.
  induction l1 as [|y l1 IH]; intros Hx; simpl.
  - by destruct (decide (x = x)).
  - apply not_elem_of_cons in Hx as [Hne Hx].
    destruct (decide (x = y)); [done|]. by rewrite IH.
Qed.

Lemma elem_of_first_occurrence (x : loc) (l : list loc) :
  x ∈ l -> exists l1 l2, l = l1 ++ x :: l2 /\ x ∉ l1.
Proof.
  induction l as [|y l IH]; intros Hx; [by apply elem_of_nil in Hx|].
  destruct (decide (x = y)) as [<-|Hne].
  - exists [], l. split; [done|]. apply not_elem_of_nil.
  - apply elem_of_cons in Hx as [|Hx]; [done|].
    destruct (IH Hx) as (l1 & l2 & -> & Hl1).
    exists (y :: l1), l2. split; [done|]. by apply not_elem_of_cons.
Qed.

(** X8.  [remove] takes out the first occurrence of the child and nothing
    else: when the materials of a collection are [l1 ++ m :: l2] with [m] not
    in [l1], [remove(m)] leaves [l1 ++ l2], in this order, and clears the
    parent of [m]; likewise for the openings of a side. *)
Theorem remove_takes_first_occurrence (h : heap) (l1 l2 : list loc) :
  (forall c m cc mm,
      h !! c = Some (OCollection cc) -> h !! m = Some (OMaterial mm) ->
      c_materials cc = l1 ++ m :: l2 -> m ∉ l1 ->
      MaterialCollection_remove c m h
      = (inr tt, <[m := OMaterial (Material_set_parent None mm)]>
                   (<[c := OCollection (Collection_set_materials (l1 ++ l2) cc)]> h)))
  /\ (forall s o sd oc,
      h !! s = Some (OSide sd) -> h !! o = Some (OCollection oc) ->
      c_kind oc = KOpening ->
      s_openings sd = l1 ++ o :: l2 -> o ∉ l1 ->
      Side_remove s o h
      = (inr tt, <[o := OCollection (Collection_set_parent None oc)]>
                   (<[s := OSide (Side_set_openings (l1 ++ l2) sd)]> h))).
Proof.
  split.
  - intros c m cc mm Hc Hm Hms Hfirst.
    apply MaterialCollection_remove_run; try done.
    rewrite Hms. by apply list_remove_first.
  - intros s o sd oc Hs Ho Hk Hos Hfirst.
    apply Side_remove_opening_run; try done.
    rewrite Hos. by apply list_remove_first.
Qed.

Lemma remove_takes_first_occurrence_witness :
  Side_remove Sample.side Sample.opening Sample.store
  = (inr tt,
     <[Sample.opening := OCollection (mkCollection KOpening None (Some (Qc_of_Z 2))
                                        [Sample.opening_material])]>
       (<[Sample.side := OSide (mkSide (Some Sample.building) (Some (Qc_of_Z 3))
                                  (Some Sample.wall) [])]> Sample.store)).
Proof.
  refine (proj2 (remove_takes_first_occurrence Sample.store [] [])
            Sample.side Sample.opening _ _ eq_refl eq_refl eq_refl eq_refl _).
  apply (bool_decide_unpack _). vm_compute. exact I.
Defined.

(** X9.  [add] does not look whether the child is already held.  Adding a
    material that a collection already holds lists it once more, at the end;
    one [remove] then takes out its first occurrence only, so that the
    material is still listed although its parent is now [None].  The same
    holds for the openings of a side. *)
Theorem add_of_held_child_duplicates (h : heap) :
  (forall c m cc mm,
      h !! c = Some (OCollection cc) -> h !! m = Some (OMaterial mm) ->
      m ∈ c_materials cc ->
      exists h1 h2,
        MaterialCollection_add c m h = (inr tt, h1)
        /\ materials_of h1 c = c_materials cc ++ [m]
        /\ MaterialCollection_remove c m h1 = (inr tt, h2)
        /\ m ∈ materials_of h2 c /\ parent_is h2 m None)
  /\ (forall s o sd oc,
      h !! s = Some (OSide sd) -> h !! o = Some (OCollection oc) ->
      c_kind oc = KOpening -> o ∈ s_openings sd ->
      exists h1 h2,
        Side_add s o h = (inr tt, h1)
        /\ openings_of h1 s = s_openings sd ++ [o]
        /\ Side_remove s o h1 = (inr tt, h2)
        /\ o ∈ openings_of h2 s /\ parent_is h2 o None).
Proof.
  split.
  - intros c m cc mm Hc Hm Hin. assert (c <> m) by distinct_objects.
    destruct (elem_of_first_occurrence m _ Hin) as (l1 & l2 & Hms & Hl1).
    eexists _, _. split; [by apply MaterialCollection_add_run|].
    split; [by observe|]. split.
    + eapply MaterialCollection_remove_run; lookups; try done.
      simpl. rewrite Hms, <- app_assoc. simpl. by apply list_remove_first.
    + split; observe; [|done]. set_solver.
  - intros s o sd oc Hs Ho Hk Hin. assert (s <> o) by distinct_objects.
    destruct (elem_of_first_occurrence o _ Hin) as (l1 & l2 & Hos & Hl1).
    eexists _, _. split; [by apply Side_add_opening_run|].
    split; [by observe|]. split.
    + eapply Side_remove_opening_run; lookups; try done.
      simpl. rewrite Hos, <- app_assoc. simpl. by apply list_remove_first.
    + split; observe; [|done]. set_solver.
Qed.

Lemma add_of_held_child_duplicates_witness :
  exists h1 h2,
    MaterialCollection_add Sample.wall Sample.wall_material Sample.store = (inr tt, h1)
    /\ materials_of h1 Sample.wall = [Sample.wall_material; Sample.wall_material]
    /\ MaterialCollection_remove Sample.wall Sample.wall_material h1 = (inr tt, h2)
    /\ Sample.wall_material ∈ materials_of h2 Sample.wall
    /\ parent_is h2 Sample.wall_material None.
Proof.
  refine (proj1 (add_of_held_child_duplicates Sample.store)
            Sample.wall Sample.wall_material _ _ eq_refl eq_refl _).
  apply (bool_decide_unpack _). vm_compute. exact I.
Defined.

(** ** Children moved between parents *)

(** X10.  [add] does not detach the child from the parent it has.  A material
    held by the collection [c1] and added to another collection [c2] is then
    listed by both, with [c2] as its parent; removing it from [c1] afterwards
    clears its parent although [c2] still lists it.  Likewise a wall held by
    the side [s1] and added to another side [s2] is in the slot of both. *)
Theorem add_does_not_detach (h : heap) :
  (forall c1 c2 m cc1 cc2 mm,
      h !! c1 = Some (OCollection cc1) -> h !! c2 = Some (OCollection cc2) ->
      c1 <> c2 ->
      h !! m = Some (OMaterial mm) -> m_parent mm = Some c1 -> m ∈ c_materials cc1 ->
      exists h1 h2,
        MaterialCollection_add c2 m h = (inr tt, h1)
        /\ m ∈ materials_of h1 c1 /\ m ∈ materials_of h1 c2
        /\ parent_is h1 m (Some c2)
        /\ MaterialCollection_remove c1 m h1 = (inr tt, h2)
        /\ m ∈ materials_of h2 c2 /\ parent_is h2 m None)
  /\ (forall s1 s2 w sd1 sd2 wc,
      h !! s1 = Some (OSide sd1) -> h !! s2 = Some (OSide sd2) -> s1 <> s2 ->
      h !! w = Some (OCollection wc) -> c_kind wc = KWall ->
      c_parent wc = Some s1 -> s_wall sd1 = Some w ->
      exists h1,
        Side_add s2 w h = (inr tt, h1)
        /\ wall_of h1 s1 = Some w /\ wall_of h1 s2 = Some w
        /\ parent_is h1 w (Some s2)).
Proof.
  split.
  - intros c1 c2 m cc1 cc2 mm H1 H2 Hne Hm Hp Hin.
    assert (c1 <> m) by distinct_objects. assert (c2 <> m) by distinct_objects.
    destruct (elem_of_first_occurrence m _ Hin) as (l1 & l2 & Hms & Hl1).
    eexists _, _. split; [by apply MaterialCollection_add_run|].
    split; [observe; by rewrite H1|].
    split; [observe; set_solver|].
    split; [by observe|].
    split.
    + eapply MaterialCollection_remove_run; lookups; try done.
      rewrite Hms. by apply list_remove_first.
    + split; observe; [|done]. set_solver.
  - intros s1 s2 w sd1 sd2 wc H1 H2 Hne Hw Hk Hp Hslot.
    assert (s1 <> w) by distinct_objects. assert (s2 <> w) by distinct_objects.
    eexists. split; [by apply Side_add_wall_run|].
    split; [observe; by rewrite H1|].
    split; by observe.
Qed.

(** The sample wall, added to the spare side, is the wall of both sides. *)
Lemma add_does_not_detach_witness :
  exists h1,
    Side_add Sample.spare_side Sample.wall Sample.store = (inr tt, h1)
    /\ wall_of h1 Sample.side = Some Sample.wall
    /\ wall_of h1 Sample.spare_side = Some Sample.wall
    /\ parent_is h1 Sample.wall (Some Sample.spare_side).
Proof.
  refine (proj2 (add_does_not_detach Sample.store)
            Sample.side Sample.spare_side Sample.wall _ _ _
            eq_refl eq_refl _ eq_refl eq_refl eq_refl eq_refl).
  discriminate.
Defined.

(** * modify *)

(** X11.  [modify] writes one attribute of one object and nothing else, so
    it does not keep the two ends of a parent link together as [remove] does:
    after [material.modify("parent", None)] the collection still lists the
    material, and after [side.modify("wall", None)] the wall still names the
    side as its parent.  [Roof], [Floor], [Wall] and [MaterialCollection]
    have no [modify]: the call raises [AttributeError]. *)
Theorem modify_writes_one_attribute (h : heap) :
  (forall c m cc mm,
      h !! c = Some (OCollection cc) -> h !! m = Some (OMaterial mm) ->
      m ∈ c_materials cc ->
      exists h1, call_modify m "parent" PNone h = (inr tt, h1)
                 /\ parent_is h1 m None /\ m ∈ materials_of h1 c
                 /\ forall l, l <> m -> h1 !! l = h !! l)
  /\ (forall s w sd wc,
      h !! s = Some (OSide sd) -> s_wall sd = Some w ->
      h !! w = Some (OCollection wc) -> c_parent wc = Some s ->
      exists h1, call_modify s "wall" PNone h = (inr tt, h1)
                 /\ wall_of h1 s = None /\ parent_is h1 w (Some s)
                 /\ forall l, l <> s -> h1 !! l = h !! l)
  /\ (forall x c variable value,
      h !! x = Some (OCollection c) -> c_kind c <> KOpening ->
      call_modify x variable value h = (inl AttributeError, h)).
Proof.
  split; [|split].
  - intros c m cc mm Hc Hm Hin. assert (c <> m) by distinct_objects.
    eexists. split; [run_modify; by rewrite Hm|].
    split; [by observe|]. split; [observe; by rewrite Hc|].
    intros l Hl. by rewrite lookup_insert_ne.
  - intros s w sd wc Hs Hslot Hw Hp. assert (s <> w) by distinct_objects.
    eexists. split; [run_modify; by rewrite Hs|].
    split; [by observe|]. split; [observe; by rewrite Hw|].
    intros l Hl. by rewrite lookup_insert_ne.
  - intros x c variable value Hx Hk. unfold call_modify. rewrite Hx.
    by destruct (c_kind c).
Qed.

Lemma modify_writes_one_attribute_witness :
  (exists h1, call_modify Sample.wall_material "parent" PNone Sample.store = (inr tt, h1)
              /\ parent_is h1 Sample.wall_material None
              /\ Sample.wall_material ∈ materials_of h1 Sample.wall
              /\ forall l, l <> Sample.wall_material -> h1 !! l = Sample.store !! l)
  /\ call_modify Sample.roof "surface" (PNum 1) Sample.store
     = (inl AttributeError, Sample.store).
Proof.
  destruct (modify_writes_one_attribute Sample.store) as (H1 & _ & H3). split.
  - refine (H1 Sample.wall Sample.wall_material _ _ eq_refl eq_refl _).
    apply (bool_decide_unpack _). vm_compute. exact I.
  - refine (H3 Sample.roof _ "surface" (PNum 1) eq_refl _). discriminate.
Defined.

Lemma are_layers_insert_other
    (h : heap) (x : loc) (o : object) (ms : list loc) (layers : list (Qc * Qc)) :
  x ∉ ms -> are_layers h ms layers -> are_layers (<[x := o]> h) ms layers.
Proof.
  intros Hx Hl. induction Hl as [|m tk ms layers [[p Hm] Hk] _ IH]; [constructor|].
  apply not_elem_of_cons in Hx as [Hne Hx].
  constructor; [|by apply IH].
  split; [|done]. exists p. by rewrite lookup_insert_ne.
Qed.

Lemma are_layers_materials
    (h : heap) (x : loc) (ms : list loc) (layers : list (Qc * Qc)) :
  are_layers h ms layers -> (forall mm, h !! x <> Some (OMaterial mm)) -> x ∉ ms.
Proof.
  intros Hl Hx. induction Hl as [|m tk ms layers [[p Hm] Hk] _ IH].
  - apply not_elem_of_nil.
  - apply not_elem_of_cons. split; [|done].
    intros ->. by eapply Hx.
Qed.

Lemma Floor_calculate_flux_layers
    (h : heap) (self : loc) (c : Collection) (w l dT : Qc) (layers : list (Qc * Qc)) :
  attached_to_building h self c w l ->
  c_kind c = KFloor ->
  are_layers h (c_materials c) layers ->
  Forall (fun tk => 0 <= tk.1) layers ->
  Floor_calculate_flux self (Some dT) h
  = (inr (dT / (conductive_sum layers + Q2Qc (1 # 10)) * (w * l)),
     <[self := OCollection (Collection_set_surface (Some (w * l)) c)]> h).
Proof.
  intros Hatt Hk Hl Ht.
  pose proof Hatt as [Hself _].
  pose proof (thermal_insulance_layers h self c layers Hself Hl) as Hi.
  rewrite Hk in Hi. simpl in Hi.
  apply (Floor_calculate_flux_attached h self c w l _ dT Hatt Hi).
  intros Hz.
  pose proof (conductive_sum_nonneg layers (are_layers_positive h _ layers Hl Ht)) as Hs.
  assert (Hpos : 0 < conductive_sum layers + Q2Qc (1 # 10))
    by (apply Qcplus_nonneg_pos; done).
  rewrite Hz in Hpos. by apply Qclt_not_eq in Hpos.
Qed.

(** X12.  The dimensions written with [building.modify] are the ones the
    next flux computation of the floor uses: after
    [modify("width", w'); modify("length", l')], whatever the dimensions were
    (set or not), [floor.calculate_flux(dT)] sets the surface to [w' * l'] and
    returns [dT / (conductive sum + 1/10) * (w' * l')]. *)
Theorem Building_modify_then_Floor_calculate_flux
    (h : heap) (b f : loc) (bd : Building) (c : Collection)
    (w' l' dT : Qc) (layers : list (Qc * Qc)) :
  h !! b = Some (OBuilding bd) ->
  h !! f = Some (OCollection c) -> c_kind c = KFloor -> c_parent c = Some b ->
  are_layers h (c_materials c) layers ->
  Forall (fun tk => 0 <= tk.1) layers ->
  exists h2,
    (let* _ := call_modify b "width" (PNum w') in
     call_modify b "length" (PNum l')) h = (inr tt, h2)
    /\ Floor_calculate_flux f (Some dT) h2
       = (inr (dT / (conductive_sum layers + Q2Qc (1 # 10)) * (w' * l')),
          <[f := OCollection (Collection_set_surface (Some (w' * l')) c)]> h2).
Proof.
  intros Hb Hf Hk Hp Hl Ht. assert (b <> f) by distinct_objects.
  eexists. split.
  - unfold bind at 1. run_modify. rewrite Hb. simpl.
    rewrite ?lookup_insert_eq. simpl. rewrite insert_insert_eq. reflexivity.
  - apply Floor_calculate_flux_layers; try done.
    + split; [by rewrite lookup_insert_ne|].
      eexists b, _. split; [done|]. split; [apply lookup_insert_eq|]. done.
    + apply are_layers_insert_other; [|done].
      eapply are_layers_materials; [exact Hl|]. intros mm. by rewrite Hb.
Qed.

Lemma Building_modify_then_Floor_calculate_flux_witness :
  exists h2,
    (let* _ := call_modify Sample.building "width" (PNum (Qc_of_Z 6)) in
     call_modify Sample.building "length" (PNum (Qc_of_Z 7))) Sample.store = (inr tt, h2)
    /\ Floor_calculate_flux Sample.floor (Some (Qc_of_Z 5)) h2
       = (inr (Qc_of_Z 5 / (conductive_sum [(Q2Qc (1 # 10), Q2Qc (1 # 2))] + Q2Qc (1 # 10))
               * (Qc_of_Z 6 * Qc_of_Z 7)),
          <[Sample.floor := OCollection (Collection_set_surface
                                           (Some (Qc_of_Z 6 * Qc_of_Z 7))
                                           (mkCollection KFloor (Some Sample.building) None
                                              [Sample.floor_material]))]> h2).
Proof.
  refine (Building_modify_then_Floor_calculate_flux Sample.store Sample.building
            Sample.floor _ _ (Qc_of_Z 6) (Qc_of_Z 7) (Qc_of_Z 5)
            [(Q2Qc (1 # 10), Q2Qc (1 # 2))] eq_refl eq_refl eq_refl eq_refl
            Sample_floor_layers _).
  repeat constructor. done.
Defined.

Lemma conductive_sum_app (ly1 ly2 : list (Qc * Qc)) :
  conductive_sum (ly1 ++ ly2) = conductive_sum ly1 + conductive_sum ly2.
Proof.
  unfold conductive_sum. induction ly1 as [|tk ly1 IH]; csimpl; [ring|].
  rewrite IH. ring.
Qed.

(** X13.  The thickness written with [material.modify] is the one the
    collection uses from then on: when [m] occurs once among the materials of
    a collection, between the sound layers [ly1] and [ly2], and has the
    positive conductivity [k], then after [m.modify("thickness", t')],
    whatever the thickness of [m] was (set or not), the conductive insulance
    of the collection is [sum ly1 + t'/k + sum ly2] and its thermal insulance
    that plus the convective terms. *)
Theorem Material_modify_thickness_updates_insulance
    (h : heap) (c m : loc) (cc : Collection) (mm : Material)
    (l1 l2 : list loc) (ly1 ly2 : list (Qc * Qc)) (k t' : Qc) :
  h !! c = Some (OCollection cc) ->
  c_materials cc = l1 ++ m :: l2 -> m ∉ l1 -> m ∉ l2 ->
  h !! m = Some (OMaterial mm) -> m_thermal_conductivity mm = Some k -> 0 < k ->
  are_layers h l1 ly1 -> are_layers h l2 ly2 ->
  exists h1,
    call_modify m "thickness" (PNum t') h = (inr tt, h1)
    /\ MaterialCollection_calculate_thermal_conductivity_insulance c h1
       = inr (conductive_sum ly1 + t' / k + conductive_sum ly2)
    /\ call_calculate_thermal_insulance c h1
       = inr (conductive_sum ly1 + t' / k + conductive_sum ly2
              + convective_terms (c_kind cc)).
Proof.
  intros Hc Hms H1 H2 Hm Hk Hpos Hl1 Hl2. assert (c <> m) by distinct_objects.
  eexists. split; [run_modify; by rewrite Hm|].
  set (h1 := <[m := _]> h).
  assert (Hc1 : h1 !! c = Some (OCollection cc)) by (unfold h1; by rewrite lookup_insert_ne).
  assert (Hl : are_layers h1 (c_materials cc) (ly1 ++ (t', k) :: ly2)).
  { rewrite Hms. apply Forall2_app; [by apply are_layers_insert_other|].
    constructor; [|by apply are_layers_insert_other].
    split; [|done]. exists (m_parent mm). unfold h1. rewrite lookup_insert_eq.
    simpl. by rewrite Hk. }
  assert (Hsum : conductive_sum (ly1 ++ (t', k) :: ly2)
                 = conductive_sum ly1 + t' / k + conductive_sum ly2).
  { rewrite conductive_sum_app. unfold conductive_sum at 2. csimpl.
    fold (conductive_sum ly2). ring. }
  split.
  - rewrite (conductive_insulance_layers h1 c cc _ Hc1 Hl). by rewrite Hsum.
  - rewrite (thermal_insulance_layers h1 c cc _ Hc1 Hl). by rewrite Hsum.
Qed.

(** The spare material, of conductivity 1, added to the sample wall and then
    given the thickness 3. *)
Lemma Material_modify_thickness_updates_insulance_witness :
  let h := snd (MaterialCollection_add Sample.wall Sample.spare_material Sample.store) in
  exists h1,
    call_modify Sample.spare_material "thickness" (PNum (Qc_of_Z 3)) h = (inr tt, h1)
    /\ MaterialCollection_calculate_thermal_conductivity_insulance Sample.wall h1
       = inr (conductive_sum [(Q2Qc (1 # 10), Q2Qc (1 # 2))] + Qc_of_Z 3 / 1
              + conductive_sum [])
    /\ call_calculate_thermal_insulance Sample.wall h1
       = inr (conductive_sum [(Q2Qc (1 # 10), Q2Qc (1 # 2))] + Qc_of_Z 3 / 1
              + conductive_sum [] + convective_terms KWall).
Proof.
  intros h.
  refine (Material_modify_thickness_updates_insulance h Sample.wall Sample.spare_material
            _ _ [Sample.wall_material] [] [(Q2Qc (1 # 10), Q2Qc (1 # 2))] [] 1 (Qc_of_Z 3)
            eq_refl eq_refl _ _ eq_refl eq_refl _ _ _).
  - apply (bool_decide_unpack _). vm_compute. exact I.
  - apply (bool_decide_unpack _). vm_compute. exact I.
  - done.
  - repeat constructor. by exists (Some Sample.wall).
  - constructor.
Defined.

(** * Constructors with children *)

Lemma alloc_fresh (o : object) (h : heap) :
  alloc o h = (inr (fresh (dom h)), <[fresh (dom h) := o]> h)
  /\ h !! fresh (dom h) = None.
Proof.
  split; [reflexivity|]. apply not_elem_of_dom, is_fresh.
Qed.

Lemma add_each_materials (self : loc) (ms : list loc) :
  forall (h0 : heap) (c0 : Collection),
    h0 !! self = Some (OCollection c0) ->
    Forall (fun m => exists mm, h0 !! m = Some (OMaterial mm)) ms ->
    exists h',
      add_each MaterialCollection_add self ms h0 = (inr tt, h')
      /\ h' !! self
         = Some (OCollection (Collection_set_materials (c_materials c0 ++ ms) c0))
      /\ (forall m mm, m ∈ ms -> h0 !! m = Some (OMaterial mm) ->
          h' !! m = Some (OMaterial (Material_set_parent (Some self) mm)))
      /\ (forall l, l <> self -> l ∉ ms -> h' !! l = h0 !! l).
Proof.
  induction ms as [|m ms IH]; intros h0 c0 Hself Hall.
  - exists h0. split; [reflexivity|]. split.
    + rewrite app_nil_r. by destruct c0.
    + split; [|done]. intros m mm Hin. by apply elem_of_nil in Hin.
  - apply Forall_cons in Hall as [[mm Hm] Hall].
    assert (self <> m) by distinct_objects.
    set (h1 := <[m := OMaterial (Material_set_parent (Some self) mm)]>
                 (<[self := OCollection
                              (Collection_set_materials (c_materials c0 ++ [m]) c0)]> h0)).
    assert (Hrun : MaterialCollection_add self m h0 = (inr tt, h1))
      by by apply MaterialCollection_add_run.
    destruct (IH h1 (Collection_set_materials (c_materials c0 ++ [m]) c0))
      as (h' & Hloop & Hself' & Hch & Hframe).
    { unfold h1. by lookups. }
    { eapply Forall_impl; [exact Hall|]. intros m' [mm' Hm'].
      assert (self <> m') by distinct_objects. unfold h1.
      destruct (decide (m = m')) as [<-|]; [rewrite lookup_insert_eq; by eexists|].
      lookups. by eexists. }
    exists h'. split; [simpl; unfold bind; by rewrite Hrun|].
    split; [rewrite Hself'; simpl; by rewrite <- app_assoc|].
    split.
    + intros m' mm' Hin Hm'. assert (self <> m') by distinct_objects.
      destruct (decide (m' ∈ ms)) as [Hin'|Hnin].
      * destruct (decide (m = m')) as [<-|Hne].
        -- rewrite (Hch m (Material_set_parent (Some self) mm) Hin');
             [|unfold h1; by rewrite lookup_insert_eq].
           rewrite Hm in Hm'. by injection Hm' as <-.
        -- apply Hch; [done|]. unfold h1. by lookups.
      * apply elem_of_cons in Hin as [->|]; [|done].
        rewrite Hframe by done. unfold h1. rewrite lookup_insert_eq.
        rewrite Hm in Hm'. by injection Hm' as <-.
    + intros l Hl Hnin. apply not_elem_of_cons in Hnin as [Hne Hnin].
      rewrite Hframe by done. unfold h1. by lookups.
Qed.

(** X14.  [MaterialCollection(materials)] (also as [Roof], [Floor], [Wall])
    given materials of the store makes a new object, distinct from every
    object of the store, that lists these materials in the order given, and
    makes it the parent of each of them; its own parent and surface are
    [None], and no other object changes. *)
Theorem MaterialCollection_construct_attaches (h : heap) (k : kind) (ms : list loc) :
  Forall (fun m => exists mm, h !! m = Some (OMaterial mm)) ms ->
  exists self h',
    MaterialCollection_construct k ms h = (inr self, h')
    /\ h !! self = None
    /\ h' !! self = Some (OCollection (mkCollection k None None ms))
    /\ Forall (fun m => parent_is h' m (Some self)) ms
    /\ (forall l, l <> self -> l ∉ ms -> h' !! l = h !! l).
Proof.
  intros Hall.
  destruct (alloc_fresh (MaterialCollection_init k) h) as [Halloc Hfresh].
  set (self := fresh (dom h)) in *.
  set (h0 := <[self := MaterialCollection_init k]> h) in *.
  assert (Hne : forall m, m ∈ ms -> self <> m).
  { intros m Hin ->. rewrite Forall_forall in Hall.
    destruct (Hall _ Hin) as [mm Hm]. congruence. }
  destruct (add_each_materials self ms h0 (mkCollection k None None []))
    as (h' & Hloop & Hself' & Hch & Hframe).
  { unfold h0. by rewrite lookup_insert_eq. }
  { rewrite Forall_forall in Hall |- *. intros m Hin.
    destruct (Hall _ Hin) as [mm Hm]. exists mm.
    unfold h0. rewrite lookup_insert_ne; [done|]. by apply Hne. }
  exists self, h'. split.
  - unfold MaterialCollection_construct, bind, ret. by rewrite Halloc, Hloop.
  - split; [done|]. split; [by rewrite Hself'|]. split.
    + rewrite Forall_forall in Hall |- *. intros m Hin.
      destruct (Hall _ Hin) as [mm Hm]. unfold parent_is.
      rewrite (Hch m mm Hin); [done|].
      unfold h0. rewrite lookup_insert_ne; [done|]. by apply Hne.
    + intros l Hl Hnin. rewrite Hframe by done. unfold h0. by rewrite lookup_insert_ne.
Qed.

Lemma MaterialCollection_construct_attaches_witness :
  exists self h',
    MaterialCollection_construct KWall
      [Sample.spare_material; Sample.roof_material] Sample.store = (inr self, h')
    /\ Sample.store !! self = None
    /\ h' !! self = Some (OCollection (mkCollection KWall None None
                                         [Sample.spare_material; Sample.roof_material]))
    /\ Forall (fun m => parent_is h' m (Some self))
         [Sample.spare_material; Sample.roof_material]
    /\ (forall l, l <> self -> l ∉ [Sample.spare_material; Sample.roof_material] ->
        h' !! l = Sample.store !! l).
Proof.
  refine (MaterialCollection_construct_attaches Sample.store KWall
            [Sample.spare_material; Sample.roof_material] _).
  repeat constructor; by eexists.
Defined.

(** X15.  [Building(width, length, roof, side, floor)] given a roof, a side
    and a floor of the store makes a new object, distinct from every object
    of the store, that holds the three in its slots, and makes it the parent
    of each of them; no other object changes. *)
Theorem Building_construct_attaches
    (h : heap) (width length : option Qc) (r s f : loc)
    (rc fc : Collection) (sd : Side) :
  h !! r = Some (OCollection rc) -> c_kind rc = KRoof ->
  h !! s = Some (OSide sd) ->
  h !! f = Some (OCollection fc) -> c_kind fc = KFloor ->
  exists self h',
    Building_construct width length (Some r) (Some s) (Some f) h = (inr self, h')
    /\ h !! self = None
    /\ h' !! self = Some (OBuilding (mkBuilding width length (Some r) (Some s) (Some f)))
    /\ h' !! r = Some (OCollection (Collection_set_parent (Some self) rc))
    /\ h' !! s = Some (OSide (Side_set_parent (Some self) sd))
    /\ h' !! f = Some (OCollection (Collection_set_parent (Some self) fc))
    /\ (forall l, l <> self -> l <> r -> l <> s -> l <> f -> h' !! l = h !! l).
Proof.
  intros Hr Hkr Hs Hf Hkf.
  destruct (alloc_fresh (Building_init width length) h) as [Halloc Hfresh].
  set (self := fresh (dom h)) in *.
  assert (self <> r) by congruence. assert (self <> s) by congruence.
  assert (self <> f) by congruence.
  assert (r <> s) by distinct_objects. assert (s <> f) by distinct_objects.
  assert (r <> f) by (intros ->; congruence).
  eexists self, _. split.
  - unfold Building_construct, bind, read, write, ret, as_building.
    rewrite Halloc.
    erewrite Building_add_roof_run; [|by lookups|by lookups|done].
    lookups. simpl.
    erewrite Building_add_side_run; [|by lookups|by lookups].
    lookups. simpl.
    erewrite Building_add_floor_run; [|by lookups|by lookups|done].
    reflexivity.
  - split; [done|]. repeat split; try by lookups.
    intros l ? ? ? ?. by lookups.
Qed.

Lemma Building_construct_attaches_witness :
  exists self h',
    Building_construct (Some 1) (Some 2) (Some Sample.spare_roof)
      (Some Sample.spare_side) (Some Sample.spare_floor) Sample.store = (inr self, h')
    /\ h' !! self = Some (OBuilding (mkBuilding (Some 1) (Some 2) (Some Sample.spare_roof)
                                       (Some Sample.spare_side) (Some Sample.spare_floor)))
    /\ parent_is h' Sample.spare_floor (Some self).
Proof.
  destruct (Building_construct_attaches Sample.store (Some 1) (Some 2)
              Sample.spare_roof Sample.spare_side Sample.spare_floor _ _ _
              eq_refl eq_refl eq_refl eq_refl eq_refl)
    as (self & h' & Hrun & _ & Hself & _ & _ & Hf & _).
  exists self, h'. split; [exact Hrun|]. split; [exact Hself|].
  unfold parent_is. by rewrite Hf.
Defined.

(** X16.  [Building.__init__] hands each argument to [add], which files it
    by its class, not by the name of the argument, and resets the side and
    floor slots before their own arguments are added.  So a floor or a side
    passed as [roof] ends in no slot although the building has become its
    parent, while a roof passed as [floor] ends in the roof slot. *)
Theorem Building_construct_files_by_class (h : heap) (width length : option Qc) :
  (forall f fc,
      h !! f = Some (OCollection fc) -> c_kind fc = KFloor ->
      exists self h',
        Building_construct width length (Some f) None None h = (inr self, h')
        /\ h' !! self = Some (OBuilding (mkBuilding width length None None None))
        /\ parent_is h' f (Some self))
  /\ (forall s sd,
      h !! s = Some (OSide sd) ->
      exists self h',
        Building_construct width length (Some s) None None h = (inr self, h')
        /\ h' !! self = Some (OBuilding (mkBuilding width length None None None))
        /\ parent_is h' s (Some self))
  /\ (forall r rc,
      h !! r = Some (OCollection rc) -> c_kind rc = KRoof ->
      exists self h',
        Building_construct width length None None (Some r) h = (inr self, h')
        /\ h' !! self = Some (OBuilding (mkBuilding width length (Some r) None None))
        /\ parent_is h' r (Some self)).
Proof.
  destruct (alloc_fresh (Building_init width length) h) as [Halloc Hfresh].
  set (self := fresh (dom h)) in *.
  split; [|split].
  - intros f fc Hf Hk. assert (self <> f) by congruence.
    eexists self, _. split.
    + unfold Building_construct, bind, read, write, ret, as_building.
      rewrite Halloc.
      erewrite Building_add_floor_run; [|by lookups|by lookups|done].
      lookups. simpl. lookups. simpl. reflexivity.
    + split; [by lookups|]. unfold parent_is. by lookups.
  - intros s sd Hs. assert (self <> s) by congruence.
    eexists self, _. split.
    + unfold Building_construct, bind, read, write, ret, as_building.
      rewrite Halloc.
      erewrite Building_add_side_run; [|by lookups|by lookups].
      lookups. simpl. lookups. simpl. reflexivity.
    + split; [by lookups|]. unfold parent_is. by lookups.
  - intros r rc Hr Hk. assert (self <> r) by congruence.
    eexists self, _. split.
    + unfold Building_construct, bind, read, write, ret, as_building.
      rewrite Halloc. simpl. lookups. simpl. lookups. simpl.
      erewrite Building_add_roof_run; [|by lookups|by lookups|done].
      reflexivity.
    + split; [by lookups|]. unfold parent_is. by lookups.
Qed.

Lemma Building_construct_files_by_class_witness :
  exists self h',
    Building_construct (Some 1) (Some 2) (Some Sample.spare_floor) None None Sample.store
    = (inr self, h')
    /\ h' !! self = Some (OBuilding (mkBuilding (Some 1) (Some 2) None None None))
    /\ parent_is h' Sample.spare_floor (Some self).
Proof.
  exact (proj1 (Building_construct_files_by_class Sample.store (Some 1) (Some 2))
           Sample.spare_floor _ eq_refl eq_refl).
Defined.

Lemma add_each_openings (self : loc) (os : list loc) :
  forall (h0 : heap) (sd0 : Side),
    h0 !! self = Some (OSide sd0) ->
    Forall (fun o => exists oc, h0 !! o = Some (OCollection oc) /\ c_kind oc = KOpening) os ->
    exists h',
      add_each Side_add self os h0 = (inr tt, h')
      /\ h' !! self = Some (OSide (Side_set_openings (s_openings sd0 ++ os) sd0))
      /\ (forall o oc, o ∈ os -> h0 !! o = Some (OCollection oc) ->
          h' !! o = Some (OCollection (Collection_set_parent (Some self) oc)))
      /\ (forall l, l <> self -> l ∉ os -> h' !! l = h0 !! l).
Proof.
  induction os as [|o os IH]; intros h0 sd0 Hself Hall.
  - exists h0. split; [reflexivity|]. split.
    + rewrite app_nil_r. by destruct sd0.
    + split; [|done]. intros o oc Hin. by apply elem_of_nil in Hin.
  - apply Forall_cons in Hall as [(oc & Ho & Hk) Hall].
    assert (self <> o) by distinct_objects.
    set (h1 := <[o := OCollection (Collection_set_parent (Some self) oc)]>
                 (<[self := OSide (Side_set_openings (s_openings sd0 ++ [o]) sd0)]> h0)).
    assert (Hrun : Side_add self o h0 = (inr tt, h1))
      by by apply Side_add_opening_run.
    destruct (IH h1 (Side_set_openings (s_openings sd0 ++ [o]) sd0))
      as (h' & Hloop & Hself' & Hch & Hframe).
    { unfold h1. by lookups. }
    { eapply Forall_impl; [exact Hall|]. intros o' (oc' & Ho' & Hk').
      assert (self <> o') by distinct_objects. unfold h1.
      destruct (decide (o = o')) as [<-|]; [rewrite lookup_insert_eq; by eexists|].
      lookups. by eexists. }
    exists h'. split; [simpl; unfold bind; by rewrite Hrun|].
    split; [rewrite Hself'; simpl; by rewrite <- app_assoc|].
    split.
    + intros o' oc' Hin Ho'. assert (self <> o') by distinct_objects.
      destruct (decide (o' ∈ os)) as [Hin'|Hnin].
      * destruct (decide (o = o')) as [<-|Hne].
        -- rewrite (Hch o (Collection_set_parent (Some self) oc) Hin');
             [|unfold h1; by rewrite lookup_insert_eq].
           rewrite Ho in Ho'. by injection Ho' as <-.
        -- apply Hch; [done|]. unfold h1. by lookups.
      * apply elem_of_cons in Hin as [->|]; [|done].
        rewrite Hframe by done. unfold h1. rewrite lookup_insert_eq.
        rewrite Ho in Ho'. by injection Ho' as <-.
    + intros l Hl Hnin. apply not_elem_of_cons in Hnin as [Hne Hnin].
      rewrite Hframe by done. unfold h1. by lookups.
Qed.

(** X17.  [Side(height, wall, openings)] given a wall and openings of the
    store makes a new object, distinct from every object of the store, that
    holds the wall in its slot and lists the openings in the order given, and
    makes it the parent of the wall and of each opening.  Given an opening in
    the place of the wall it raises [AttributeError], because the list of
    openings is not there yet when the wall is added, and attaches nothing. *)
Theorem Side_construct_attaches
    (h : heap) (height : option Qc) (os : list loc) :
  Forall (fun o => exists oc, h !! o = Some (OCollection oc) /\ c_kind oc = KOpening) os ->
  (forall w wc,
      h !! w = Some (OCollection wc) -> c_kind wc = KWall ->
      exists self h',
        Side_construct height (Some w) os h = (inr self, h')
        /\ h !! self = None
        /\ h' !! self = Some (OSide (mkSide None height (Some w) os))
        /\ parent_is h' w (Some self)
        /\ Forall (fun o => parent_is h' o (Some self)) os
        /\ (forall l, l <> self -> l <> w -> l ∉ os -> h' !! l = h !! l))
  /\ (forall o oc,
      h !! o = Some (OCollection oc) -> c_kind oc = KOpening ->
      exists self,
        Side_construct height (Some o) os h
        = (inl AttributeError, <[self := Side_init height]> h)
        /\ h !! self = None).
Proof.
  intros Hall.
  destruct (alloc_fresh (Side_init height) h) as [Halloc Hfresh].
  set (self := fresh (dom h)) in *.
  set (h0 := <[self := Side_init height]> h) in *.
  assert (Hne : forall o, o ∈ os -> self <> o).
  { intros o Hin ->. rewrite Forall_forall in Hall.
    destruct (Hall _ Hin) as (oc & Ho & _). congruence. }
  split.
  - intros w wc Hw Hk. assert (self <> w) by congruence.
    assert (Hw_os : w ∉ os).
    { intros Hin. rewrite Forall_forall in Hall.
      destruct (Hall _ Hin) as (oc & Ho & Hko). congruence. }
    set (h1 := <[w := OCollection (Collection_set_parent (Some self) wc)]>
                 (<[self := OSide (Side_set_wall (Some w) (mkSide None height None []))]> h0)).
    assert (Hadd : Side_add self w h0 = (inr tt, h1)).
    { apply Side_add_wall_run; unfold h0; by lookups. }
    destruct (add_each_openings self os h1 (mkSide None height (Some w) []))
      as (h' & Hloop & Hself' & Hch & Hframe).
    { unfold h1. by lookups. }
    { rewrite Forall_forall in Hall |- *. intros o Hin.
      destruct (Hall _ Hin) as (oc & Ho & Hko). exists oc. split; [|done].
      assert (w <> o) by (intros ->; done). pose proof (Hne o Hin).
      unfold h1, h0. by lookups. }
    exists self, h'. split.
    + unfold Side_construct, bind, ret. rewrite Halloc. fold h0.
      assert (Hinst : isinstance h0 w KWall = true).
      { unfold isinstance, h0. lookups. rewrite Hw, Hk. done. }
      by rewrite Hinst, Hadd, Hloop.
    + split; [done|]. split; [by rewrite Hself'|]. split.
      * unfold parent_is. rewrite Hframe by done. unfold h1. by lookups.
      * split.
        -- rewrite Forall_forall in Hall |- *. intros o Hin.
           destruct (Hall _ Hin) as (oc & Ho & Hko). unfold parent_is.
           assert (w <> o) by (intros ->; done). pose proof (Hne o Hin).
           rewrite (Hch o oc Hin); [done|]. unfold h1, h0. by lookups.
        -- intros l Hl Hlw Hnin. rewrite Hframe by done. unfold h1, h0. by lookups.
  - intros o oc Ho Hk. assert (self <> o) by congruence.
    exists self. split; [|done].
    unfold Side_construct, bind, ret. rewrite Halloc. fold h0.
    assert (Hw : isinstance h0 o KWall = false).
    { unfold isinstance, h0. lookups. rewrite Ho, Hk. done. }
    assert (Hop : isinstance h0 o KOpening = true).
    { unfold isinstance, h0. lookups. rewrite Ho, Hk. done. }
    by rewrite Hw, Hop.
Qed.

Lemma Side_construct_attaches_witness :
  exists self h',
    Side_construct (Some 1) (Some Sample.spare_wall) [Sample.spare_opening] Sample.store
    = (inr self, h')
    /\ h' !! self = Some (OSide (mkSide None (Some 1) (Some Sample.spare_wall)
                                   [Sample.spare_opening]))
    /\ parent_is h' Sample.spare_wall (Some self)
    /\ Forall (fun o => parent_is h' o (Some self)) [Sample.spare_opening].
Proof.
  destruct (proj1 (Side_construct_attaches Sample.store (Some 1) [Sample.spare_opening]
                     ltac:(repeat constructor; by eexists))
              Sample.spare_wall _ eq_refl eq_refl)
    as (self & h' & Hrun & _ & Hself & Hw & Hos & _).
  by exists self, h'.
Defined.
